(** * dsf2csv: the row accumulator and CSV projection of [tools/dsf2csv.c]

    A shallow embedding of the sample-processing part of the converter:
    [reset_sample_data], [write_sample_to_csv], [sample_callback] and the
    part of [main] that drives them, followed by the properties the
    specification states about them.

    - an [unsigned int] is a [Z] in [0, 2^32) ([is_uint]), and is wrapped
      into that range where it is printed;
    - a [double] is an IEEE 754 value in the Standard Library's [spec_float];
    - a [FILE *] opened for writing is the text written to it so far;
    - the [(type, value)] pair handed to the callback is a tagged union. *)

From Stdlib Require Import ZArith String Ascii List Bool Lia.
From Stdlib Require Import Floats.SpecFloat.
From Stdlib Require Import DecimalString.
Import ListNotations.

Open Scope string_scope.
Open Scope Z_scope.

(* ================================================================== *)
(** ** The C library: integers, doubles and [fprintf] conversions      *)
(* ================================================================== *)

Module Libc.

(** Text written to a stream so far. *)
Definition FILE := string.

(** The line feed character: the newline of the C format strings. *)
Definition LF : string := String (ascii_of_nat 10) "".

(** [unsigned int] is 32 bits wide: conversion to it wraps modulo 2^32. *)
Definition UINT_WIDTH : Z := 32.
Definition to_uint (z : Z) : Z := z mod 2 ^ UINT_WIDTH.
Definition is_uint (z : Z) : Prop := 0 <= z < 2 ^ UINT_WIDTH.

(** A [double]. Values that fit binary64 satisfy [valid_double]. *)
Definition double := spec_float.
Definition valid_double (x : double) : bool := valid_binary 53 1024 x.

(** The double nearest to an integer (exact for the small ones used here). *)
Definition double_of_Z (z : Z) : double := binary_normalize 53 1024 z 0 false.

(** C's [a >= b] and [a > b] on doubles: false when either side is NaN. *)
Definition double_ge (a b : double) : bool := SFleb b a.
Definition double_gt (a b : double) : bool := SFltb b a.
Definition double_lt (a b : double) : bool := SFltb a b.

Definition is_finite (x : double) : bool :=
  match x with
  | S754_zero _ | S754_finite _ _ _ => true
  | S754_infinity _ | S754_nan => false
  end.

(** Decimal digits of a natural number, without leading zeros. *)
Definition decimal (n : Z) : string :=
  NilZero.string_of_uint (N.to_uint (Z.to_N n)).

Definition digit (d : Z) : ascii := ascii_of_nat (48 + Z.to_nat (d mod 10)).

(** Exactly [k] decimal digits: the last [k] digits of [n], zero padded. *)
Fixpoint digits_fixed (k : nat) (n : Z) : string :=
  match k with
  | O => ""
  | S k' => digits_fixed k' (n / 10) ++ String (digit n) ""
  end.

(** ["%u"]. *)
Definition fmt_u (z : Z) : string := decimal (to_uint z).

(** ["%d"]. *)
Definition fmt_d (z : Z) : string :=
  if z <? 0 then "-" ++ decimal (- z) else decimal z.

(** [num / den] rounded to the nearest integer, ties to even: the
    rounding [printf] applies to the exact value of a double. *)
Definition round_half_even (num den : Z) : Z :=
  let q := num / den in
  let r := num mod den in
  if (den <? 2 * r) || ((2 * r =? den) && Z.odd q) then q + 1 else q.

(** The magnitude [m * 2^e] in units of [10^-p], rounded. *)
Definition scaled (p : nat) (m : positive) (e : Z) : Z :=
  if 0 <=? e
  then Z.pos m * 2 ^ e * 10 ^ Z.of_nat p
  else round_half_even (Z.pos m * 10 ^ Z.of_nat p) (2 ^ (- e)).

(** A count [n] of units of [10^-p] written with [p] fractional digits. *)
Definition fixed_point (p : nat) (n : Z) : string :=
  match p with
  | O => decimal n
  | S _ => decimal (n / 10 ^ Z.of_nat p) ++ "." ++ digits_fixed p n
  end.

Definition sign_text (s : bool) : string := if s then "-" else "".

(** ["%.pf"]. The sign of a NaN is not part of [spec_float]; a NaN is
    written as [nan]. *)
Definition fmt_f (p : nat) (x : double) : string :=
  match x with
  | S754_nan => "nan"
  | S754_infinity s => sign_text s ++ "inf"
  | S754_zero s => sign_text s ++ fixed_point p 0
  | S754_finite s m e => sign_text s ++ fixed_point p (scaled p m e)
  end.

(** [fprintf(f, ...)]: the formatted text is appended to the stream. *)
Definition fprintf (f : FILE) (text : string) : FILE := f ++ text.

End Libc.

Import Libc.

(* ================================================================== *)
(** ** libdivecomputer's interface                                     *)
(* ================================================================== *)

(** Modelled from the spec: [dc_sample_type_t] and the union
    [dc_sample_value_t] are declared in libdivecomputer's headers, which
    are not among the sources. A sample event has a kind among Time,
    Depth, Temperature, PartialPressureO2, CNS, Setpoint, DecoStatus and
    Other, and a payload whose shape depends on the kind: an integer time
    offset in milliseconds, a floating-point value, or a
    [{status, duration, depth}] triple. Each constructor is the tag
    [sample_callback] tests, with the union members it reads under it;
    the integer members are [unsigned int]. *)
Inductive dc_sample : Type :=
| DC_SAMPLE_TIME (time : Z)
| DC_SAMPLE_DEPTH (depth : double)
| DC_SAMPLE_TEMPERATURE (temperature : double)
| DC_SAMPLE_PPO2 (ppo2_value : double)
| DC_SAMPLE_CNS (cns : double)
| DC_SAMPLE_SETPOINT (setpoint : double)
| DC_SAMPLE_DECO (deco_type deco_time : Z) (deco_depth : double)
| DC_SAMPLE_OTHER.

(** Modelled from the spec: the constants of [dc_deco_type_t] come from
    the same headers. The decompression status is one of NDL, DecoStop and
    SafetyStop; the constants are numbered as that enumeration declares
    them, and the development only uses that they differ. *)
Definition DC_DECO_NDL : Z := 0.
Definition DC_DECO_SAFETYSTOP : Z := 1.
Definition DC_DECO_DECOSTOP : Z := 2.

(** Modelled from the spec: [dc_status_t], of which the code only tests
    [DC_STATUS_SUCCESS]; any other value is a decode fault. *)
Definition dc_status_t := Z.
Definition DC_STATUS_SUCCESS : dc_status_t := 0.

(** Modelled from the spec: the decoder is an external collaborator. One
    decoding pass delivers a sequence of sample events, in order, to the
    callback, and ends with a status: end of stream, or a decode fault
    that stops the delivery of further events. *)
Record dc_parser_t : Type := {
  parser_samples : list dc_sample;
  parser_status : dc_status_t
}.

(* ================================================================== *)
(** ** The program                                                     *)
(* ================================================================== *)

(** [sample_data_t]: the data of one CSV row. *)
Record sample_data_t : Type := {
  time : Z;
  depth : double;
  temperature : double;
  ppo2 : double;
  cns : double;
  setpoint : double;
  deco_type : Z;
  deco_time : Z;
  deco_depth : double;
  dirty : Z
}.

(** [callback_userdata_t]. In the C code [current_sample] points to the
    row that [main] owns; here the record holds that one row, and [main]
    reads it back after the decoding pass. *)
Record callback_userdata_t : Type := {
  outfile : FILE;
  current_sample : sample_data_t
}.

(** The literals [0.0], [-1.0] and [-999.0]. *)
Definition zero : double := S754_zero false.
Definition minus_one : double := Eval vm_compute in double_of_Z (-1).
Definition minus_999 : double := Eval vm_compute in double_of_Z (-999).

(** [reset_sample_data]: every field of the row is assigned. *)
Definition reset_sample_data (sample : sample_data_t) : sample_data_t :=
  {| time := 0;
     depth := minus_one;
     temperature := minus_999;
     ppo2 := minus_one;
     cns := minus_one;
     setpoint := minus_one;
     deco_type := DC_DECO_NDL;
     deco_time := 0;
     deco_depth := zero;
     dirty := 0 |}.

(** [write_sample_to_csv]. *)
Definition write_sample_to_csv (outfile : FILE) (sample : sample_data_t)
  : FILE :=
  if dirty sample =? 0 then outfile else
  let outfile := fprintf outfile (fmt_u (Z.quot (time sample) 1000) ++ ",") in
  let outfile :=
    if double_ge (depth sample) zero
    then fprintf outfile (fmt_f 2 (depth sample)) else outfile in
  let outfile := fprintf outfile "," in
  let outfile :=
    if double_gt (temperature sample) minus_999
    then fprintf outfile (fmt_f 1 (temperature sample)) else outfile in
  let outfile := fprintf outfile "," in
  let outfile :=
    if double_ge (ppo2 sample) zero
    then fprintf outfile (fmt_f 2 (ppo2 sample)) else outfile in
  let outfile := fprintf outfile "," in
  let outfile :=
    if double_ge (cns sample) zero
    then fprintf outfile (fmt_f 2 (cns sample)) else outfile in
  let outfile := fprintf outfile "," in
  let outfile :=
    if double_ge (setpoint sample) zero
    then fprintf outfile (fmt_f 2 (setpoint sample)) else outfile in
  let outfile := fprintf outfile "," in
  let deco_type_str :=
    if deco_type sample =? DC_DECO_DECOSTOP then "DECOSTOP"
    else if deco_type sample =? DC_DECO_SAFETYSTOP then "SAFETYSTOP"
    else "NDL" in
  fprintf outfile
    (deco_type_str ++ "," ++ fmt_u (deco_time sample) ++ ","
       ++ fmt_f 2 (deco_depth sample) ++ LF).

(** Assignments to single fields of the row. *)
Definition set_time (v : Z) (s : sample_data_t) : sample_data_t :=
  {| time := v; depth := depth s; temperature := temperature s;
     ppo2 := ppo2 s; cns := cns s; setpoint := setpoint s;
     deco_type := deco_type s; deco_time := deco_time s;
     deco_depth := deco_depth s; dirty := dirty s |}.

Definition set_depth (v : double) (s : sample_data_t) : sample_data_t :=
  {| time := time s; depth := v; temperature := temperature s;
     ppo2 := ppo2 s; cns := cns s; setpoint := setpoint s;
     deco_type := deco_type s; deco_time := deco_time s;
     deco_depth := deco_depth s; dirty := dirty s |}.

Definition set_temperature (v : double) (s : sample_data_t) : sample_data_t :=
  {| time := time s; depth := depth s; temperature := v;
     ppo2 := ppo2 s; cns := cns s; setpoint := setpoint s;
     deco_type := deco_type s; deco_time := deco_time s;
     deco_depth := deco_depth s; dirty := dirty s |}.

Definition set_ppo2 (v : double) (s : sample_data_t) : sample_data_t :=
  {| time := time s; depth := depth s; temperature := temperature s;
     ppo2 := v; cns := cns s; setpoint := setpoint s;
     deco_type := deco_type s; deco_time := deco_time s;
     deco_depth := deco_depth s; dirty := dirty s |}.

Definition set_cns (v : double) (s : sample_data_t) : sample_data_t :=
  {| time := time s; depth := depth s; temperature := temperature s;
     ppo2 := ppo2 s; cns := v; setpoint := setpoint s;
     deco_type := deco_type s; deco_time := deco_time s;
     deco_depth := deco_depth s; dirty := dirty s |}.

Definition set_setpoint (v : double) (s : sample_data_t) : sample_data_t :=
  {| time := time s; depth := depth s; temperature := temperature s;
     ppo2 := ppo2 s; cns := cns s; setpoint := v;
     deco_type := deco_type s; deco_time := deco_time s;
     deco_depth := deco_depth s; dirty := dirty s |}.

Definition set_deco (ty tm : Z) (d : double) (s : sample_data_t)
  : sample_data_t :=
  {| time := time s; depth := depth s; temperature := temperature s;
     ppo2 := ppo2 s; cns := cns s; setpoint := setpoint s;
     deco_type := ty; deco_time := tm; deco_depth := d; dirty := dirty s |}.

Definition set_dirty (v : Z) (s : sample_data_t) : sample_data_t :=
  {| time := time s; depth := depth s; temperature := temperature s;
     ppo2 := ppo2 s; cns := cns s; setpoint := setpoint s;
     deco_type := deco_type s; deco_time := deco_time s;
     deco_depth := deco_depth s; dirty := v |}.

Definition with_sample (userdata : callback_userdata_t) (s : sample_data_t)
  : callback_userdata_t :=
  {| outfile := outfile userdata; current_sample := s |}.

(** [sample_callback]. *)
Definition sample_callback (sample_ev : dc_sample)
    (userdata : callback_userdata_t) : callback_userdata_t :=
  let sample := current_sample userdata in
  match sample_ev with
  | DC_SAMPLE_TIME value_time =>
      let out := write_sample_to_csv (outfile userdata) sample in
      let sample := reset_sample_data sample in
      let sample := set_time value_time sample in
      let sample := set_dirty 1 sample in
      {| outfile := out; current_sample := sample |}
  | DC_SAMPLE_DEPTH value_depth =>
      with_sample userdata (set_depth value_depth sample)
  | DC_SAMPLE_TEMPERATURE value_temperature =>
      with_sample userdata (set_temperature value_temperature sample)
  | DC_SAMPLE_PPO2 value_ppo2 =>
      with_sample userdata (set_ppo2 value_ppo2 sample)
  | DC_SAMPLE_CNS value_cns =>
      with_sample userdata (set_cns value_cns sample)
  | DC_SAMPLE_SETPOINT value_setpoint =>
      with_sample userdata (set_setpoint value_setpoint sample)
  | DC_SAMPLE_DECO value_deco_type value_deco_time value_deco_depth =>
      with_sample userdata
        (set_deco value_deco_type value_deco_time value_deco_depth sample)
  | DC_SAMPLE_OTHER => userdata
  end.

(** Modelled from the spec: [dc_parser_samples_foreach] belongs to the
    decoder. It invokes the callback once per decoded event, in order, and
    returns the status the pass ended with. *)
Definition dc_parser_samples_foreach (parser : dc_parser_t)
    (callback : dc_sample -> callback_userdata_t -> callback_userdata_t)
    (userdata : callback_userdata_t) : dc_status_t * callback_userdata_t :=
  (parser_status parser,
   fold_left (fun u ev => callback ev u) (parser_samples parser) userdata).

(** The streams [main] writes while it processes the samples: the CSV
    file and the standard error. The progress messages on the standard
    output are left out. *)
Record streams : Type := {
  output_file : FILE;
  stderr : FILE
}.

Definition csv_header : string :=
  "Time,Depth,Temperature,PPO2,CNS,Setpoint,DecoType,DecoTime,DecoDepth" ++ LF.

(** [main], from the header line to the end of the sample processing.
    [uninit] is the content of the local [current_sample] before it is
    reset; [output_file] has just been opened. *)
Definition main_process_samples (parser : dc_parser_t)
    (uninit : sample_data_t) (io : streams) : streams :=
  let output_file := fprintf (output_file io) csv_header in
  let sample := reset_sample_data uninit in
  let userdata := {| outfile := output_file; current_sample := sample |} in
  let '(status, userdata) :=
    dc_parser_samples_foreach parser sample_callback userdata in
  let stderr :=
    if negb (status =? DC_STATUS_SUCCESS)
    then fprintf (stderr io)
           ("Error during sample processing (code: " ++ fmt_d status ++ ")"
              ++ LF)
    else stderr io in
  let output_file :=
    write_sample_to_csv (outfile userdata) (current_sample userdata) in
  {| output_file := output_file; stderr := stderr |}.

(* ================================================================== *)
(** ** The specification's reading of the two stages                   *)
(* ================================================================== *)

(** These definitions follow the words of the specification; the theorems
    below compare them with the functions of the program. *)
Module Spec.

(** A Row is the program's [sample_data_t]. *)
Definition Row := sample_data_t.

(** An optional field: its formatted value if present, else empty. *)
Definition optional_field (present : bool) (text : string) : string :=
  if present then text else "".

(** The literal token of a decompression status. *)
Definition deco_status_token (ty : Z) : string :=
  if ty =? DC_DECO_DECOSTOP then "DECOSTOP"
  else if ty =? DC_DECO_SAFETYSTOP then "SAFETYSTOP"
  else "NDL".

(** The nine fields, in their fixed order: time, depth, temperature,
    ppo2, cns, setpoint, deco_status, deco_time, deco_depth. *)
Definition csv_fields (r : Row) : list string :=
  [ fmt_u (Z.quot (time r) 1000);
    optional_field (double_ge (depth r) zero) (fmt_f 2 (depth r));
    optional_field (double_gt (temperature r) minus_999)
                   (fmt_f 1 (temperature r));
    optional_field (double_ge (ppo2 r) zero) (fmt_f 2 (ppo2 r));
    optional_field (double_ge (cns r) zero) (fmt_f 2 (cns r));
    optional_field (double_ge (setpoint r) zero) (fmt_f 2 (setpoint r));
    deco_status_token (deco_type r);
    fmt_u (deco_time r);
    fmt_f 2 (deco_depth r) ].

(** One line of text: the fields separated by commas, then a newline. *)
Definition csv_line (r : Row) : string :=
  String.concat "," (csv_fields r) ++ LF.

(** The text of a sequence of completed rows. *)
Definition csv_lines (rows : list Row) : string :=
  String.concat "" (map csv_line rows).

(** The default state of a Row: all optional fields absent, decompression
    state at its defaults, not dirty. *)
Definition default_row : Row :=
  {| time := 0; depth := minus_one; temperature := minus_999;
     ppo2 := minus_one; cns := minus_one; setpoint := minus_one;
     deco_type := DC_DECO_NDL; deco_time := 0; deco_depth := zero;
     dirty := 0 |}.

(** The Row a Time event starts: the default Row with its timestamp set
    and [dirty] true. *)
Definition fresh_row (t : Z) : Row :=
  set_dirty 1 (set_time t default_row).

(** The rows a flush emits: the Row itself if and only if it is dirty. *)
Definition flush (R : Row) : list Row :=
  if dirty R =? 0 then [] else [R].

(** [on_event]: the rows emitted by the event and the Row after it. *)
Definition on_event (R : Row) (E : dc_sample) : list Row * Row :=
  match E with
  | DC_SAMPLE_TIME t => (flush R, fresh_row t)
  | DC_SAMPLE_DEPTH v => ([], set_depth v R)
  | DC_SAMPLE_TEMPERATURE v => ([], set_temperature v R)
  | DC_SAMPLE_PPO2 v => ([], set_ppo2 v R)
  | DC_SAMPLE_CNS v => ([], set_cns v R)
  | DC_SAMPLE_SETPOINT v => ([], set_setpoint v R)
  | DC_SAMPLE_DECO ty tm d => ([], set_deco ty tm d R)
  | DC_SAMPLE_OTHER => ([], R)
  end.

(** [finish]: the last flush. *)
Definition finish (R : Row) : list Row := flush R.

(** The rows emitted while the events are delivered, and the Row in
    progress when the delivery stops. *)
Fixpoint deliver (R : Row) (events : list dc_sample) : list Row * Row :=
  match events with
  | [] => ([], R)
  | E :: rest =>
      let '(emitted, R') := on_event R E in
      let '(later, R'') := deliver R' rest in
      ((emitted ++ later)%list, R'')
  end.

(** All completed rows of a stream: those emitted on the way, then the
    one [finish] emits. *)
Definition completed_rows (events : list dc_sample) : list Row :=
  let '(emitted, R) := deliver default_row events in
  (emitted ++ finish R)%list.

End Spec.

(** A Time event, and an event that is not one. *)
Definition is_time (E : dc_sample) : bool :=
  match E with DC_SAMPLE_TIME _ => true | _ => false end.

Definition no_time (events : list dc_sample) : bool :=
  forallb (fun E => negb (is_time E)) events.

(** Delivery of a list of events to the callback. *)
Definition deliver_all (events : list dc_sample)
    (userdata : callback_userdata_t) : callback_userdata_t :=
  fold_left (fun u ev => sample_callback ev u) events userdata.

(* ================================================================== *)
(** ** Vocabulary of the statements                                  *)
(* ================================================================== *)

(** The latest payload an event list holds for one kind of event. *)
Fixpoint latest {A : Type} (sel : dc_sample -> option A)
    (events : list dc_sample) : option A :=
  match events with
  | [] => None
  | E :: rest =>
      match latest sel rest with
      | Some v => Some v
      | None => sel E
      end
  end.

Definition or_default {A : Type} (default : A) (o : option A) : A :=
  match o with Some v => v | None => default end.

Definition depth_of (E : dc_sample) : option double :=
  match E with DC_SAMPLE_DEPTH v => Some v | _ => None end.
Definition temperature_of (E : dc_sample) : option double :=
  match E with DC_SAMPLE_TEMPERATURE v => Some v | _ => None end.
Definition ppo2_of (E : dc_sample) : option double :=
  match E with DC_SAMPLE_PPO2 v => Some v | _ => None end.
Definition cns_of (E : dc_sample) : option double :=
  match E with DC_SAMPLE_CNS v => Some v | _ => None end.
Definition setpoint_of (E : dc_sample) : option double :=
  match E with DC_SAMPLE_SETPOINT v => Some v | _ => None end.
Definition deco_of (E : dc_sample) : option (Z * Z * double) :=
  match E with DC_SAMPLE_DECO ty tm d => Some (ty, tm, d) | _ => None end.

(** The row that one Time event and the field events after it add up to. *)
Definition row_of (t : Z) (events : list dc_sample) : sample_data_t :=
  let '(ty, tm, d) :=
    or_default (DC_DECO_NDL, 0, zero) (latest deco_of events) in
  {| time := t;
     depth := or_default minus_one (latest depth_of events);
     temperature := or_default minus_999 (latest temperature_of events);
     ppo2 := or_default minus_one (latest ppo2_of events);
     cns := or_default minus_one (latest cns_of events);
     setpoint := or_default minus_one (latest setpoint_of events);
     deco_type := ty; deco_time := tm; deco_depth := d;
     dirty := 1 |}.

(** Every character of a text satisfies a test. *)
Fixpoint all_chars (P : ascii -> bool) (s : string) : bool :=
  match s with
  | EmptyString => true
  | String c s' => P c && all_chars P s'
  end.

Definition is_digit (c : ascii) : bool :=
  (48 <=? nat_of_ascii c)%nat && (nat_of_ascii c <=? 57)%nat.

(** The characters that separate fields and lines. *)
Definition is_separator (c : ascii) : bool :=
  Ascii.eqb c "," || Ascii.eqb c (ascii_of_nat 10).

Definition all_digits (s : string) : bool := all_chars is_digit s.
Definition no_separator (s : string) : bool :=
  all_chars (fun c => negb (is_separator c)) s.

(** An unsigned integer in decimal: one digit or more, nothing else. *)
Definition unsigned_integer_text (s : string) : Prop :=
  s <> "" /\ all_digits s = true.

(** A number with exactly [p] decimal places: an optional minus sign, one
    digit or more, a point and exactly [p] digits. *)
Definition decimal_places (p : nat) (s : string) : Prop :=
  exists sign int frac,
    s = sign ++ int ++ "." ++ frac /\
    (sign = "" \/ sign = "-") /\
    unsigned_integer_text int /\
    all_digits frac = true /\ String.length frac = p.

(** The fields of a line: the text between its commas. *)
Fixpoint split_commas (s : string) : list string :=
  match s with
  | EmptyString => [""]
  | String c s' =>
      if Ascii.eqb c ","
      then "" :: split_commas s'
      else match split_commas s' with
           | f :: fs => String c f :: fs
           | [] => [String c ""]
           end
  end.

(** One line of text made of fields: the fields separated by commas,
    then a newline. *)
Definition line_of_fields (fields : list string) : string :=
  String.concat "," fields ++ LF.

(** The number of newline characters of a text. *)
Fixpoint count_newlines (s : string) : nat :=
  match s with
  | EmptyString => O
  | String c s' =>
      ((if Ascii.eqb c (ascii_of_nat 10) then 1 else 0) + count_newlines s')%nat
  end.

(** A field written with ["%.pf"]: for a finite value the text has
    exactly [p] decimal places (an infinity or a NaN is written as [inf],
    [-inf] or [nan], as [printf] does). *)
Definition decimal_field (p : nat) (v : double) (f : string) : Prop :=
  f = fmt_f p v /\ (is_finite v = true -> decimal_places p f).

(** An optional numeric field: empty when absent, a [decimal_field] when
    present. *)
Definition optional_decimal_field (p : nat) (present : bool) (v : double)
    (f : string) : Prop :=
  (present = false -> f = "") /\ (present = true -> decimal_field p v f).

(** A row whose values the projection can be asked to render: used as an
    example where a statement needs one. *)
Definition example_row : sample_data_t :=
  {| time := 1999; depth := double_of_Z 20; temperature := double_of_Z 28;
     ppo2 := minus_one; cns := minus_one; setpoint := minus_one;
     deco_type := DC_DECO_DECOSTOP; deco_time := 120;
     deco_depth := double_of_Z 9; dirty := 1 |}.

(** A dirty row with values that are not finite: a depth of plus
    infinity and a deco depth that is a NaN. Both are values of a
    [double]. *)
Definition non_finite_row : sample_data_t :=
  {| time := 0; depth := S754_infinity false; temperature := minus_999;
     ppo2 := minus_one; cns := minus_one; setpoint := minus_one;
     deco_type := DC_DECO_NDL; deco_time := 0;
     deco_depth := S754_nan; dirty := 1 |}.

(* ================================================================== *)
(** ** The rest of [tools/dsf2csv.c]                                   *)
(* ================================================================== *)

(** C strings: a [string] holds the characters before the terminating
    NUL. *)
Module CString.

(** The first [n] characters of a string. [strncpy(dst, src, n)] followed
    by [dst[n] = 0] leaves them in [dst]. *)
Fixpoint string_take (n : nat) (s : string) : string :=
  match n, s with
  | O, _ => ""
  | S _, EmptyString => ""
  | S n', String c s' => String c (string_take n' s')
  end.

(** [strrchr(s, c)]: the index of the last occurrence of [c], if any. *)
Fixpoint strrchr (s : string) (c : ascii) : option nat :=
  match s with
  | EmptyString => None
  | String ch s' =>
      match strrchr s' c with
      | Some i => Some (S i)
      | None => if Ascii.eqb ch c then Some O else None
      end
  end.

(** [strcpy(s + at, src)]: the text from index [at] on is replaced. *)
Definition strcpy_at (s : string) (at_index : nat) (src : string) : string :=
  string_take at_index s ++ src.

(** [strcat(s, src)]. *)
Definition strcat (s src : string) : string := s ++ src.

(** [strcmp(a, b) == 0]. *)
Definition strcmp_eq (a b : string) : bool := String.eqb a b.

End CString.

Import CString.

(** [sizeof(output_filename)]. *)
Definition OUTPUT_FILENAME_SIZE : nat := 256.

(** [main], the derivation of the name of the output file from the name
    of the input file. *)
Definition output_filename_of (input_filename : string) : string :=
  let output_filename :=
    string_take (OUTPUT_FILENAME_SIZE - 5) input_filename in
  match strrchr output_filename "." with
  | Some dot => strcpy_at output_filename dot ".csv"
  | None => strcat output_filename ".csv"
  end.

(** A text without the character [c]. *)
Definition lacks (c : ascii) (s : string) : bool :=
  all_chars (fun ch => negb (Ascii.eqb ch c)) s.

(** ["%0wd"]: at least [w] characters, padded with zeros after the
    sign. *)
Fixpoint zeros (n : nat) : string :=
  match n with
  | O => ""
  | S n' => String "0" (zeros n')
  end.

Definition fmt_0d (width : nat) (z : Z) : string :=
  let sign := if z <? 0 then "-" else "" in
  let digits := decimal (Z.abs z) in
  sign ++ zeros (width - String.length sign - String.length digits) ++ digits.

(** Modelled from the spec: the other values of [dc_status_t] that the
    code names, as libdivecomputer numbers them. *)
Definition DC_STATUS_INVALIDARGS : dc_status_t := -2.
Definition DC_STATUS_NOMEMORY : dc_status_t := -3.
Definition DC_STATUS_IO : dc_status_t := -6.

(** Modelled from the spec: a device descriptor, of which the code reads
    the vendor and the product. *)
Record dc_descriptor_t : Type := {
  vendor : string;
  product : string
}.

(** Modelled from the spec: [dc_datetime_t], of which the code prints six
    [int] members. *)
Record dc_datetime_t : Type := {
  year : Z;
  month : Z;
  day : Z;
  hour : Z;
  minute : Z;
  second : Z
}.

(** Modelled from the spec: a parser the library created for a buffer.
    The metadata queries are single-shot and may fail ([None]); the
    samples are the decoding pass. *)
Record dc_parser : Type := {
  parser_datetime : option dc_datetime_t;
  parser_maxdepth : option double;
  parser_divetime : option Z;
  parser_run : dc_parser_t
}.

(** Modelled from the spec: what [main] gets from its collaborators, the
    C library, the file system and libdivecomputer. *)
Record environment : Type := {
  (** The macro [DC_VERSION]. *)
  DC_VERSION : string;
  (** The status of [dc_context_new]. *)
  dc_context_new : dc_status_t;
  (** [fopen(name, "rb")]: the bytes of the file, if it can be opened. *)
  fopen_rb : string -> option (list Byte.byte);
  (** Whether [malloc] of that many bytes succeeds. *)
  malloc_ok : Z -> bool;
  (** The number of bytes one [fread] of the whole file delivers. *)
  fread_count : string -> Z;
  (** The descriptors, in the order the iterator yields them. *)
  dc_descriptor_iterator : list dc_descriptor_t;
  (** [dc_parser_new2] on a buffer: its status and, on success, the
      parser. *)
  dc_parser_new2 : list Byte.byte -> dc_status_t * dc_parser;
  (** Whether [fopen(name, "w")] succeeds. *)
  fopen_w : string -> bool
}.

(** [show_help]. *)
Definition show_help (env : environment) (stdout : FILE) : FILE :=
  let stdout :=
    fprintf stdout
      ("dsf2csv - Divesoft Freedom .dsf to CSV Converter" ++ LF) in
  let stdout := fprintf stdout ("Version: " ++ DC_VERSION env ++ LF ++ LF) in
  let stdout := fprintf stdout ("Usage: ./dsf2csv <input.dsf>" ++ LF) in
  let stdout := fprintf stdout ("       ./dsf2csv --help" ++ LF ++ LF) in
  let stdout :=
    fprintf stdout
      ("This tool reads a single .dsf file and outputs a .csv file" ++ LF) in
  fprintf stdout
    ("with the same name (e.g., my_dive.dsf -> my_dive.csv)." ++ LF).

(** [read_file_into_buffer]. [buffer] and [size] are what the two out
    parameters point to; a buffer that was not allocated, or was freed,
    is [None]. *)
Definition read_file_into_buffer (env : environment) (filename : string)
    (buffer : option (list Byte.byte)) (size : Z) (stderr : FILE)
  : dc_status_t * option (list Byte.byte) * Z * FILE :=
  match fopen_rb env filename with
  | None =>
      (DC_STATUS_INVALIDARGS, buffer, size,
       fprintf stderr ("Error: Cannot open file '" ++ filename ++ "'." ++ LF))
  | Some content =>
      let size := Z.of_nat (length content) in
      if size =? 0 then
        (DC_STATUS_INVALIDARGS, buffer, size,
         fprintf stderr ("Error: File '" ++ filename ++ "' is empty." ++ LF))
      else if negb (malloc_ok env size) then
        (DC_STATUS_NOMEMORY, None, size,
         fprintf stderr ("Error: Cannot allocate memory to read file." ++ LF))
      else if negb (fread_count env filename =? size) then
        (DC_STATUS_IO, None, size,
         fprintf stderr
           ("Error: Failed to read the entire file '" ++ filename ++ "'."
              ++ LF))
      else (DC_STATUS_SUCCESS, Some content, size, stderr)
  end.

(** [main], the search for the Divesoft Freedom descriptor: the first
    descriptor with that vendor and product, or [None] ([NULL]). *)
Fixpoint find_descriptor (iter : list dc_descriptor_t)
  : option dc_descriptor_t :=
  match iter with
  | [] => None
  | descriptor :: rest =>
      if strcmp_eq (vendor descriptor) "Divesoft"
         && strcmp_eq (product descriptor) "Freedom"
      then Some descriptor
      else find_descriptor rest
  end.

(** What a run of the program leaves behind: its exit status, what its
    own statements printed on the standard output and the standard error
    (what libdivecomputer logs by itself is not modelled), and the file it
    created with what it wrote to it. *)
Record process : Type := {
  exit_code : Z;
  proc_stdout : FILE;
  proc_stderr : FILE;
  csv_file : option (string * FILE)
}.

(** [main], the metadata it prints once the parser exists. *)
Definition print_metadata (parser : dc_parser) (stdout : FILE) : FILE :=
  let stdout :=
    match parser_datetime parser with
    | Some datetime =>
        fprintf stdout
          ("Dive Date/Time: " ++ fmt_0d 4 (year datetime) ++ "-"
             ++ fmt_0d 2 (month datetime) ++ "-" ++ fmt_0d 2 (day datetime)
             ++ " " ++ fmt_0d 2 (hour datetime) ++ ":"
             ++ fmt_0d 2 (minute datetime) ++ ":"
             ++ fmt_0d 2 (second datetime) ++ LF)
    | None => stdout
    end in
  let stdout :=
    match parser_maxdepth parser with
    | Some max_depth =>
        fprintf stdout ("Max Depth: " ++ fmt_f 2 max_depth ++ " m" ++ LF)
    | None => stdout
    end in
  match parser_divetime parser with
  | Some divetime =>
      fprintf stdout
        ("Dive Time: " ++ fmt_u (Z.quot divetime 60) ++ " min" ++ LF)
  | None => stdout
  end.

(** [main]. [argv] holds the [argc] arguments, the program name first;
    [uninit] is the content of the local [current_sample] before it is
    reset. *)
Definition main (env : environment) (uninit : sample_data_t)
    (argv : list string) : process :=
  let argc := length argv in
  if negb (argc =? 2)%nat then
    {| exit_code := 1; proc_stdout := show_help env "";
       proc_stderr := ""; csv_file := None |}
  else
  let argv1 := nth 1 argv "" in
  if strcmp_eq argv1 "--help" || strcmp_eq argv1 "-h" then
    {| exit_code := 0; proc_stdout := show_help env "";
       proc_stderr := ""; csv_file := None |}
  else
  let input_filename := argv1 in
  let status := dc_context_new env in
  if negb (status =? DC_STATUS_SUCCESS) then
    {| exit_code := 1; proc_stdout := "";
       proc_stderr :=
         fprintf ""
           ("Error: Failed to create libdivecomputer context (code: "
              ++ fmt_d status ++ ")" ++ LF);
       csv_file := None |}
  else
  let '(status, file_buffer, file_size, stderr) :=
    read_file_into_buffer env input_filename None 0 "" in
  if negb (status =? DC_STATUS_SUCCESS) then
    {| exit_code := 1; proc_stdout := ""; proc_stderr := stderr;
       csv_file := None |}
  else
  match find_descriptor (dc_descriptor_iterator env) with
  | None =>
      {| exit_code := 1; proc_stdout := "";
         proc_stderr :=
           fprintf stderr
             ("Error: Divesoft Freedom descriptor not found in library."
                ++ LF);
         csv_file := None |}
  | Some descriptor =>
      let '(status, parser) :=
        dc_parser_new2 env
          (match file_buffer with Some bytes => bytes | None => [] end) in
      if negb (status =? DC_STATUS_SUCCESS) then
        {| exit_code := 1; proc_stdout := "";
           proc_stderr :=
             fprintf stderr
               ("Error: Failed to create parser (code: " ++ fmt_d status
                  ++ "). Is this a valid .dsf file?" ++ LF);
           csv_file := None |}
      else
      let stdout :=
        fprintf ""
          ("Successfully created parser for " ++ input_filename ++ "."
             ++ LF ++ LF) in
      let stdout := print_metadata parser stdout in
      let output_filename := output_filename_of input_filename in
      if negb (fopen_w env output_filename) then
        {| exit_code := 1; proc_stdout := stdout;
           proc_stderr :=
             fprintf stderr
               ("Error: Could not open output file " ++ output_filename
                  ++ LF);
           csv_file := None |}
      else
      let stdout :=
        fprintf stdout (LF ++ "CSV file created: " ++ output_filename ++ LF) in
      let stdout := fprintf stdout ("Writing sample data..." ++ LF) in
      let '(Build_streams output_file stderr) :=
        main_process_samples (parser_run parser) uninit
          (Build_streams "" stderr) in
      let stdout :=
        fprintf stdout ("Sample data written successfully." ++ LF) in
      {| exit_code := 0; proc_stdout := stdout; proc_stderr := stderr;
         csv_file := Some (output_filename, output_file) |}
  end.

(** The command line asks for the help text. *)
Definition help_requested (argv : list string) : bool :=
  (length argv =? 2)%nat
  && (String.eqb (nth 1 argv "") "--help" || String.eqb (nth 1 argv "") "-h").

(** The input file can be read: it opens, it is not empty, the buffer is
    allocated and [fread] delivers every byte. *)
Definition input_readable (env : environment) (filename : string) : bool :=
  match fopen_rb env filename with
  | None => false
  | Some content =>
      let size := Z.of_nat (length content) in
      negb (size =? 0) && malloc_ok env size
      && (fread_count env filename =? size)
  end.

Definition input_bytes (env : environment) (filename : string)
  : list Byte.byte :=
  match fopen_rb env filename with Some content => content | None => [] end.

(** The library lists a descriptor of vendor Divesoft and product
    Freedom. *)
Definition freedom_listed (env : environment) : bool :=
  existsb (fun d => String.eqb (vendor d) "Divesoft"
                    && String.eqb (product d) "Freedom")
          (dc_descriptor_iterator env).

(** Every step of the set-up succeeds for a command line that names an
    input file. *)
Definition setup_succeeds (env : environment) (argv : list string) : bool :=
  let input_filename := nth 1 argv "" in
  (length argv =? 2)%nat
  && negb (help_requested argv)
  && (dc_context_new env =? DC_STATUS_SUCCESS)
  && input_readable env input_filename
  && freedom_listed env
  && (fst (dc_parser_new2 env (input_bytes env input_filename))
        =? DC_STATUS_SUCCESS)
  && fopen_w env (output_filename_of input_filename).

(** The decoding pass of the parser the library creates for the input. *)
Definition input_run (env : environment) (argv : list string) : dc_parser_t :=
  parser_run (snd (dc_parser_new2 env (input_bytes env (nth 1 argv "")))).

(** An environment in which everything works, for a one-row dive. *)
Definition example_environment : environment :=
  {| DC_VERSION := "0.8.0";
     dc_context_new := DC_STATUS_SUCCESS;
     fopen_rb := fun name =>
       if String.eqb name "my_dive.dsf" then Some [Byte.x44; Byte.x69]
       else None;
     malloc_ok := fun _ => true;
     fread_count := fun _ => 2;
     dc_descriptor_iterator :=
       [ {| vendor := "Suunto"; product := "Vyper" |};
         {| vendor := "Divesoft"; product := "Freedom" |} ];
     dc_parser_new2 := fun _ =>
       (DC_STATUS_SUCCESS,
        {| parser_datetime := None; parser_maxdepth := None;
           parser_divetime := Some 1830;
           parser_run :=
             {| parser_samples :=
                  [DC_SAMPLE_TIME 5000; DC_SAMPLE_DEPTH (double_of_Z 20)];
                parser_status := -9 |} |});
     fopen_w := fun _ => true |}.

(** The events at the head of a stream, up to its first Time event. *)
Fixpoint leading_fields (events : list dc_sample) : list dc_sample :=
  match events with
  | [] => []
  | E :: rest => if is_time E then [] else E :: leading_fields rest
  end.

(** A stream cut at its Time events: each Time payload with the events
    that follow it up to the next Time event. *)
Fixpoint segments (events : list dc_sample) : list (Z * list dc_sample) :=
  match events with
  | [] => []
  | DC_SAMPLE_TIME t :: rest => (t, leading_fields rest) :: segments rest
  | _ :: rest => segments rest
  end.

(** The payloads of the Time events of a stream, in order. *)
Definition time_payloads (events : list dc_sample) : list Z :=
  map fst (segments events).

(** An event of a kind the callback does not handle. *)
Definition is_other (E : dc_sample) : bool :=
  match E with DC_SAMPLE_OTHER => true | _ => false end.

(* ================================================================== *)
(** ** [divesoft2csv.c]                                                *)
(* ================================================================== *)

Module Divesoft2csv.

(** Modelled from the spec: the sample this program reads, a type tag
    with the members [time], [depth], [temperature] and [po2]; the tags
    of the [switch], and every other tag. *)
Inductive dc_sample_value_t : Type :=
| DC_SAMPLE_TIME (time : Z)
| DC_SAMPLE_DEPTH (depth : double)
| DC_SAMPLE_TEMPERATURE (temperature : double)
| DC_SAMPLE_PO2 (po2 : double)
| DC_SAMPLE_DEFAULT.

(** Modelled from the spec: the status that ends a decoding pass without
    a fault, as libdivecomputer numbers it. *)
Definition DC_STATUS_DONE : dc_status_t := 1.

(** Modelled from the spec: what this [main] gets from the C library,
    the file system and the decoder. *)
Record environment : Type := {
  (** [fopen(name, "rb")]: the bytes of the file, if it can be opened. *)
  fopen_rb : string -> option (list Byte.byte);
  (** Whether [fopen(name, "w")] succeeds. *)
  fopen_w : string -> bool;
  (** Whether two names lead to the same file. *)
  same_file : string -> string -> bool;
  (** The text [perror] adds for the failed [fopen] of a name. *)
  strerror : string -> string;
  (** The statuses of [dc_context_new], [dc_parser_new] and
      [dc_parser_set_data]. *)
  dc_context_new : dc_status_t;
  dc_parser_new : dc_status_t;
  dc_parser_set_data : list Byte.byte -> dc_status_t;
  (** [dc_parser_get_sample], called until it fails: the samples the
      successful calls deliver, in order, and the status of the first
      call that does not succeed. *)
  dc_parser_get_sample : list Byte.byte -> list dc_sample_value_t * dc_status_t
}.

(** The degree sign of the header, two bytes in UTF-8. *)
Definition DEGREE : string :=
  String (ascii_of_nat 194) (String (ascii_of_nat 176) "").

Definition csv_header : string :=
  "Time (s),Depth (m),Temperature (" ++ DEGREE ++ "C),pO2 (bar)" ++ LF.

(** [print_error]. *)
Definition print_error (msg : string) (rc : dc_status_t) (stderr : FILE)
  : FILE :=
  fprintf stderr (msg ++ " (" ++ fmt_d rc ++ ")" ++ LF).

(** [perror]. *)
Definition perror (env : environment) (msg name : string) (stderr : FILE)
  : FILE :=
  fprintf stderr (msg ++ ": " ++ strerror env name ++ LF).

(** [main], the body of the sample loop. *)
Definition write_sample (out : FILE) (sample : dc_sample_value_t) : FILE :=
  match sample with
  | DC_SAMPLE_TIME time => fprintf out (fmt_u time ++ ",")
  | DC_SAMPLE_DEPTH depth => fprintf out (fmt_f 2 depth ++ ",")
  | DC_SAMPLE_TEMPERATURE temperature =>
      fprintf out (fmt_f 2 temperature ++ ",")
  | DC_SAMPLE_PO2 po2 => fprintf out (fmt_f 2 po2 ++ LF)
  | DC_SAMPLE_DEFAULT => out
  end.

(** [main], the sample loop over the samples delivered. *)
Definition write_samples (samples : list dc_sample_value_t) (out : FILE)
  : FILE :=
  fold_left write_sample samples out.

(** [main]. The input is opened first, but it is measured and read only
    after the output was opened for writing and the header handed to its
    stream: when both names lead to the same file, that file was emptied
    by then, the header still being in the buffer of the output stream,
    and no byte is read. The allocation of the buffer and the [fread]
    into it are not checked by the code; they are taken to succeed. *)
Definition main (env : environment) (argv : list string) : process :=
  let argc := length argv in
  if (argc <? 3)%nat then
    {| exit_code := 1; proc_stdout := "";
       proc_stderr :=
         fprintf "" ("Gebruik: " ++ nth 0 argv "" ++ " input.dsf output.csv"
                       ++ LF);
       csv_file := None |}
  else
  let inputfile := nth 1 argv "" in
  let outputfile := nth 2 argv "" in
  match fopen_rb env inputfile with
  | None =>
      {| exit_code := 1; proc_stdout := "";
         proc_stderr := perror env "Kan inputbestand niet openen" inputfile "";
         csv_file := None |}
  | Some content =>
      if negb (fopen_w env outputfile) then
        {| exit_code := 1; proc_stdout := "";
           proc_stderr :=
             perror env "Kan outputbestand niet openen" outputfile "";
           csv_file := None |}
      else
      let out := fprintf "" csv_header in
      let rc := dc_context_new env in
      if negb (rc =? DC_STATUS_SUCCESS) then
        {| exit_code := 1; proc_stdout := "";
           proc_stderr := print_error "Kon geen context maken" rc "";
           csv_file := Some (outputfile, out) |}
      else
      let rc := dc_parser_new env in
      if negb (rc =? DC_STATUS_SUCCESS) then
        {| exit_code := 1; proc_stdout := "";
           proc_stderr := print_error "Parser kon niet aangemaakt worden" rc "";
           csv_file := Some (outputfile, out) |}
      else
      let data :=
        if same_file env inputfile outputfile then [] else content in
      let rc := dc_parser_set_data env data in
      if negb (rc =? DC_STATUS_SUCCESS) then
        {| exit_code := 1; proc_stdout := "";
           proc_stderr := print_error "Kon parser data niet zetten" rc "";
           csv_file := Some (outputfile, out) |}
      else
      let '(samples, rc) := dc_parser_get_sample env data in
      let out := write_samples samples out in
      let stderr :=
        if negb (rc =? DC_STATUS_DONE)
        then print_error "Fout tijdens uitlezen samples" rc ""
        else "" in
      {| exit_code := 0;
         proc_stdout := fprintf "" ("CSV export klaar: " ++ outputfile ++ LF);
         proc_stderr := stderr;
         csv_file := Some (outputfile, out) |}
  end.

(** A sample that ends a line. *)
Definition is_po2 (sample : dc_sample_value_t) : bool :=
  match sample with DC_SAMPLE_PO2 _ => true | _ => false end.



(** Both files open. *)
Definition files_open (env : environment) (argv : list string) : bool :=
  negb (length argv <? 3)%nat
  && match fopen_rb env (nth 1 argv "") with Some _ => true | None => false end
  && fopen_w env (nth 2 argv "").

(** The bytes read from the input: those it holds after the output was
    opened. *)
Definition input_data (env : environment) (argv : list string)
  : list Byte.byte :=
  match fopen_rb env (nth 1 argv "") with
  | Some content =>
      if same_file env (nth 1 argv "") (nth 2 argv "") then [] else content
  | None => []
  end.

(** The context, the parser and its data are set up. *)
Definition library_ready (env : environment) (argv : list string) : bool :=
  (dc_context_new env =? DC_STATUS_SUCCESS)
  && (dc_parser_new env =? DC_STATUS_SUCCESS)
  && (dc_parser_set_data env (input_data env argv) =? DC_STATUS_SUCCESS).

End Divesoft2csv.

(** An environment of [divesoft2csv.c] in which every name leads to the
    same file and the library refuses an empty buffer. *)
Definition example_same_file_environment : Divesoft2csv.environment :=
  {| Divesoft2csv.fopen_rb := fun _ => Some [Byte.x44; Byte.x69];
     Divesoft2csv.fopen_w := fun _ => true;
     Divesoft2csv.same_file := fun _ _ => true;
     Divesoft2csv.strerror := fun _ => "No such file or directory";
     Divesoft2csv.dc_context_new := DC_STATUS_SUCCESS;
     Divesoft2csv.dc_parser_new := DC_STATUS_SUCCESS;
     Divesoft2csv.dc_parser_set_data := fun data =>
       match data with [] => -9 | _ => DC_STATUS_SUCCESS end;
     Divesoft2csv.dc_parser_get_sample := fun _ =>
       ([Divesoft2csv.DC_SAMPLE_TIME 5; Divesoft2csv.DC_SAMPLE_PO2 zero],
        Divesoft2csv.DC_STATUS_DONE) |}.

(* ================================================================== *)
(** ** Text                                                            *)
(* ================================================================== *)

Section Text.

Lemma append_assoc (a b c : string) : (a ++ b) ++ c = a ++ (b ++ c).
Proof.
  induction a as [|ch a IH]; simpl; [reflexivity|].
  now rewrite IH.
Qed.

Lemma append_nil_r (a : string) : a ++ "" = a.
Proof.
  induction a as [|ch a IH]; simpl; [reflexivity|].
  now rewrite IH.
Qed.

Lemma append_length (a b : string) :
  String.length (a ++ b) = (String.length a + String.length b)%nat.
Proof.
  induction a as [|ch a IH]; simpl; [reflexivity|].
  now rewrite IH.
Qed.

Lemma append_inv_head (a b c : string) : a ++ b = a ++ c -> b = c.
Proof.
  induction a as [|ch a IH]; simpl; intros H; [assumption|].
  injection H as H. now apply IH.
Qed.

Lemma append_eq_self (a b : string) : a ++ b = a -> b = "".
Proof.
  intros H. apply (append_inv_head a). now rewrite append_nil_r.
Qed.

End Text.

(* ================================================================== *)
(** ** The projection                                                  *)
(* ================================================================== *)

Lemma write_sample_to_csv_clean (out : FILE) (s : sample_data_t) :
  dirty s = 0 -> write_sample_to_csv out s = out.
Proof.
  intros H. unfold write_sample_to_csv. now rewrite H.
Qed.

Lemma write_sample_to_csv_dirty (out : FILE) (s : sample_data_t) :
  dirty s <> 0 -> write_sample_to_csv out s = out ++ Spec.csv_line s.
Proof.
  intros H. unfold write_sample_to_csv.
  destruct (Z.eqb_spec (dirty s) 0) as [E|_]; [contradiction|].
  unfold Spec.csv_line, Spec.csv_fields, Spec.optional_field,
    Spec.deco_status_token, fprintf.
  cbn [String.concat].
  destruct (double_ge (depth s) zero), (double_gt (temperature s) minus_999),
    (double_ge (ppo2 s) zero), (double_ge (cns s) zero),
    (double_ge (setpoint s) zero);
    repeat rewrite append_assoc; reflexivity.
Qed.

Lemma write_sample_to_csv_flush (out : FILE) (s : sample_data_t) :
  write_sample_to_csv out s = out ++ Spec.csv_lines (Spec.flush s).
Proof.
  unfold Spec.flush, Spec.csv_lines.
  destruct (Z.eqb_spec (dirty s) 0) as [E|E].
  - rewrite write_sample_to_csv_clean by assumption.
    simpl. now rewrite append_nil_r.
  - rewrite write_sample_to_csv_dirty by assumption. reflexivity.
Qed.

Lemma csv_line_nonempty (R : sample_data_t) : Spec.csv_line R <> "".
Proof.
  unfold Spec.csv_line. intros H.
  apply (f_equal String.length) in H. rewrite append_length in H.
  cbn [LF String.length] in H. lia.
Qed.

(** The projection writes something if and only if the row is dirty. *)
Lemma write_sample_to_csv_writes (out : FILE) (R : sample_data_t) :
  String.eqb (write_sample_to_csv out R) out = (dirty R =? 0).
Proof.
  destruct (Z.eqb_spec (dirty R) 0) as [E|E].
  - rewrite write_sample_to_csv_clean by assumption. apply String.eqb_refl.
  - rewrite write_sample_to_csv_dirty by assumption.
    apply String.eqb_neq. intros H. apply append_eq_self in H.
    now apply (csv_line_nonempty R).
Qed.

(* ================================================================== *)
(** ** The shape of the formatted values                               *)
(* ================================================================== *)

Section Shapes.

Lemma all_chars_app P (a b : string) :
  all_chars P (a ++ b) = all_chars P a && all_chars P b.
Proof.
  induction a as [|c a IH]; simpl; [reflexivity|].
  now rewrite IH, andb_assoc.
Qed.

Lemma all_chars_weaken (P Q : ascii -> bool) (s : string) :
  (forall c, P c = true -> Q c = true) ->
  all_chars P s = true -> all_chars Q s = true.
Proof.
  intros HPQ. induction s as [|c s IH]; simpl; [reflexivity|].
  intros H. apply andb_true_iff in H as [Hc Hs].
  now rewrite (HPQ _ Hc), IH.
Qed.

Lemma digit_not_separator (c : ascii) :
  is_digit c = true -> negb (is_separator c) = true.
Proof.
  unfold is_digit, is_separator. intros H.
  apply andb_true_iff in H as [Hlo Hhi].
  destruct (Ascii.eqb_spec c ",") as [->|_];
    [vm_compute in Hlo; discriminate|].
  destruct (Ascii.eqb_spec c (ascii_of_nat 10)) as [->|_];
    [vm_compute in Hlo; discriminate|].
  reflexivity.
Qed.

Lemma all_digits_no_separator (s : string) :
  all_digits s = true -> no_separator s = true.
Proof.
  apply all_chars_weaken. exact digit_not_separator.
Qed.

Lemma digit_is_digit (d : Z) : is_digit (digit d) = true.
Proof.
  unfold digit.
  assert (H : (Z.to_nat (d mod 10) < 10)%nat)
    by (pose proof (Z.mod_pos_bound d 10); lia).
  generalize dependent (Z.to_nat (d mod 10)). intros k Hk.
  do 10 (destruct k as [|k]; [reflexivity|]).
  lia.
Qed.

Lemma digits_fixed_all_digits (k : nat) (n : Z) :
  all_digits (digits_fixed k n) = true.
Proof.
  revert n. induction k as [|k IH]; intros n; cbn [digits_fixed];
    [reflexivity|].
  unfold all_digits in *. rewrite all_chars_app, IH.
  cbn [all_chars andb]. now rewrite digit_is_digit.
Qed.

Lemma digits_fixed_length (k : nat) (n : Z) :
  String.length (digits_fixed k n) = k.
Proof.
  revert n. induction k as [|k IH]; intros n; cbn [digits_fixed];
    [reflexivity|].
  rewrite append_length, IH. cbn [String.length]. lia.
Qed.

Lemma string_of_uint_all_digits (d : Decimal.uint) :
  all_digits (NilEmpty.string_of_uint d) = true.
Proof.
  induction d; simpl; auto.
Qed.

Lemma decimal_unsigned_integer_text (n : Z) :
  unsigned_integer_text (decimal n).
Proof.
  unfold decimal, NilZero.string_of_uint, unsigned_integer_text.
  destruct (N.to_uint (Z.to_N n)) eqn:E;
    (split; [discriminate | try reflexivity]);
    rewrite <- E at 1; try (simpl; apply string_of_uint_all_digits).
Qed.

Lemma fmt_u_unsigned_integer_text (z : Z) : unsigned_integer_text (fmt_u z).
Proof. apply decimal_unsigned_integer_text. Qed.

Lemma decimal_no_separator (n : Z) : no_separator (decimal n) = true.
Proof.
  apply all_digits_no_separator, decimal_unsigned_integer_text.
Qed.

Lemma sign_fixed_point_decimal_places (p : nat) (sg : bool) (n : Z) :
  p <> O -> decimal_places p (sign_text sg ++ fixed_point p n).
Proof.
  intros Hp. destruct p as [|p]; [contradiction|].
  exists (sign_text sg), (decimal (n / 10 ^ Z.of_nat (S p))),
    (digits_fixed (S p) n).
  unfold fixed_point. split; [reflexivity|].
  split; [destruct sg; auto|].
  split; [apply decimal_unsigned_integer_text|].
  split; [apply digits_fixed_all_digits | apply digits_fixed_length].
Qed.

(** ["%.pf"] of a finite double has exactly [p] decimal places. *)
Lemma fmt_f_decimal_places (p : nat) (x : double) :
  p <> O -> is_finite x = true -> decimal_places p (fmt_f p x).
Proof.
  intros Hp Hx. destruct x as [sg|sg| |sg m e]; try discriminate;
    apply sign_fixed_point_decimal_places; assumption.
Qed.

Lemma fixed_point_no_separator (p : nat) (n : Z) :
  no_separator (fixed_point p n) = true.
Proof.
  unfold fixed_point. destruct p as [|p]; [apply decimal_no_separator|].
  unfold no_separator. rewrite !all_chars_app.
  fold (no_separator (decimal (n / 10 ^ Z.of_nat (S p)))).
  rewrite decimal_no_separator.
  fold (no_separator (digits_fixed (S p) n)).
  rewrite (all_digits_no_separator _ (digits_fixed_all_digits (S p) n)).
  reflexivity.
Qed.

Lemma fmt_f_no_separator (p : nat) (x : double) :
  no_separator (fmt_f p x) = true.
Proof.
  destruct x as [sg|sg| |sg m e]; unfold fmt_f, no_separator;
    try rewrite all_chars_app;
    try (fold (no_separator (fixed_point p 0));
         rewrite fixed_point_no_separator);
    try (fold (no_separator (fixed_point p (scaled p m e)));
         rewrite fixed_point_no_separator);
    try destruct sg; reflexivity.
Qed.

Lemma fmt_f_nonempty (p : nat) (x : double) : fmt_f p x <> "".
Proof.
  destruct x as [sg|sg| |sg m e]; unfold fmt_f; try destruct sg;
    try discriminate; cbn [sign_text append]; unfold fixed_point;
    destruct p;
    try (destruct (decimal_unsigned_integer_text 0) as [H _]; exact H);
    try (destruct (decimal_unsigned_integer_text (scaled 0 m e)) as [H _];
         exact H);
    match goal with
    | |- decimal ?n ++ _ <> "" =>
        destruct (decimal_unsigned_integer_text n) as [H _];
        destruct (decimal n); [contradiction | discriminate]
    end.
Qed.

Lemma split_commas_plain (a : string) :
  no_separator a = true -> split_commas a = [a].
Proof.
  induction a as [|c a IH]; [reflexivity|].
  cbn [no_separator all_chars split_commas]. intros H.
  apply andb_true_iff in H as [Hc Ha].
  unfold is_separator in Hc.
  destruct (Ascii.eqb c ","); [discriminate|].
  fold (no_separator a) in Ha. now rewrite (IH Ha).
Qed.

Lemma split_commas_field (a b : string) :
  no_separator a = true ->
  split_commas (a ++ "," ++ b) = a :: split_commas b.
Proof.
  induction a as [|c a IH]; [reflexivity|].
  cbn [no_separator all_chars]. intros H.
  apply andb_true_iff in H as [Hc Ha].
  unfold is_separator in Hc.
  change (String c a ++ "," ++ b) with (String c (a ++ "," ++ b)).
  cbn [split_commas].
  destruct (Ascii.eqb c ","); [discriminate|].
  fold (no_separator a) in Ha. now rewrite (IH Ha).
Qed.

(** Splitting a comma-separated line gives back its fields. *)
Lemma split_commas_concat (fields : list string) :
  fields <> [] ->
  Forall (fun f => no_separator f = true) fields ->
  split_commas (String.concat "," fields) = fields.
Proof.
  induction fields as [|f fs IH]; [contradiction|].
  intros _ H. inversion H as [|? ? Hf Hfs]; subst.
  destruct fs as [|g fs].
  - simpl. now apply split_commas_plain.
  - change (String.concat "," (f :: g :: fs))
      with (f ++ "," ++ String.concat "," (g :: fs)).
    rewrite split_commas_field by assumption.
    rewrite IH; [reflexivity | discriminate | assumption].
Qed.

(** The rounding of ["%.pf"] is to a nearest multiple of [10^-p]. *)
Lemma round_half_even_nearest (num den : Z) :
  0 < den -> 2 * Z.abs (round_half_even num den * den - num) <= den.
Proof.
  intros Hden. unfold round_half_even.
  pose proof (Z.div_mod num den ltac:(lia)) as Hdm.
  pose proof (Z.mod_pos_bound num den Hden) as Hr.
  destruct ((den <? 2 * (num mod den))
            || ((2 * (num mod den) =? den) && Z.odd (num / den))) eqn:E.
  - apply orb_true_iff in E as [E|E].
    + apply Z.ltb_lt in E. nia.
    + apply andb_true_iff in E as [E _]. apply Z.eqb_eq in E. nia.
  - apply orb_false_iff in E as [E _]. apply Z.ltb_ge in E. nia.
Qed.

(** Ties go to the even digit, on the exact binary value. *)
Example fmt_f_rounds_exact_value :
  fmt_f 2 (S754_finite false 1 (-3)) = "0.12" /\
  fmt_f 2 (S754_finite false 3 (-3)) = "0.38" /\
  fmt_f 1 (double_of_Z 28) = "28.0" /\
  fmt_f 2 (S754_finite true 1 (-1074)) = "-0.00" /\
  fmt_f 2 (S754_infinity false) = "inf".
Proof. repeat split. Qed.

Example fmt_u_wraps : fmt_u 1999 = "1999" /\ fmt_u (-1) = "4294967295".
Proof. split; reflexivity. Qed.

(** The doubles the program names are binary64 values. *)
Lemma sentinels_valid :
  valid_double zero = true /\ valid_double minus_one = true /\
  valid_double minus_999 = true.
Proof. repeat split. Qed.

End Shapes.

(* ================================================================== *)
(** ** The accumulator                                                 *)
(* ================================================================== *)

Section Accumulator.

(** [latest] is the payload of the last event of the kind. *)
Lemma latest_some {A : Type} (sel : dc_sample -> option A) events v :
  latest sel events = Some v <->
  exists before E after,
    events = (before ++ E :: after)%list /\ sel E = Some v /\
    Forall (fun E' => sel E' = None) after.
Proof.
  split.
  - revert v. induction events as [|E rest IH]; intros v H; [discriminate|].
    cbn [latest] in H. destruct (latest sel rest) as [w|] eqn:L.
    + injection H as ->. destruct (IH v eq_refl) as (b & E' & a & -> & HE & Ha).
      exists (E :: b), E', a. auto.
    + exists [], E, rest. repeat split; [assumption|].
      clear -L. induction rest as [|E' rest IH]; [constructor|].
      cbn [latest] in L. destruct (latest sel rest); [discriminate|].
      constructor; auto.
  - intros (before & E & after & -> & HE & Ha).
    assert (Hafter : latest sel after = None).
    { clear -Ha. induction Ha as [|E' after HE' _ IH]; [reflexivity|].
      cbn [latest]. now rewrite IH. }
    induction before as [|E' before IH]; cbn [app latest].
    + now rewrite Hafter.
    + now rewrite IH.
Qed.

Lemma latest_none {A : Type} (sel : dc_sample -> option A) events :
  latest sel events = None <-> Forall (fun E => sel E = None) events.
Proof.
  induction events as [|E rest IH]; cbn [latest].
  - split; [constructor | reflexivity].
  - destruct (latest sel rest) eqn:L.
    + split; [discriminate|]. intros H. inversion H; subst.
      now apply IH.
    + split; intros H.
      * constructor; [assumption | now apply IH].
      * now inversion H.
Qed.

Lemma latest_snoc {A : Type} (sel : dc_sample -> option A) events E :
  latest sel (events ++ [E]) =
  match sel E with Some v => Some v | None => latest sel events end.
Proof.
  induction events as [|E' rest IH]; cbn [app latest].
  - now destruct (sel E).
  - rewrite IH. destruct (sel E); [reflexivity|].
    reflexivity.
Qed.

Lemma csv_lines_app (a b : list sample_data_t) :
  Spec.csv_lines (a ++ b) = Spec.csv_lines a ++ Spec.csv_lines b.
Proof.
  unfold Spec.csv_lines.
  induction a as [|r a IH]; [reflexivity|].
  cbn [app map].
  destruct a as [|r' a].
  - destruct b as [|r' b]; cbn [app map String.concat].
    + now rewrite append_nil_r.
    + reflexivity.
  - cbn [app map] in *.
    change (String.concat "" (Spec.csv_line r :: Spec.csv_line r' ::
              map Spec.csv_line (a ++ b)))
      with (Spec.csv_line r ++ "" ++
              String.concat "" (Spec.csv_line r' :: map Spec.csv_line (a ++ b))).
    rewrite IH.
    change (String.concat "" (Spec.csv_line r :: Spec.csv_line r' ::
              map Spec.csv_line a))
      with (Spec.csv_line r ++ "" ++
              String.concat "" (Spec.csv_line r' :: map Spec.csv_line a)).
    cbn [append]. now rewrite append_assoc.
Qed.

Lemma reset_sample_data_default (s : sample_data_t) :
  reset_sample_data s = Spec.default_row.
Proof. reflexivity. Qed.

(** One call of the callback is one [on_event] of the specification. *)
Lemma sample_callback_on_event (E : dc_sample) (u : callback_userdata_t) :
  sample_callback E u =
  {| outfile :=
       outfile u ++ Spec.csv_lines (fst (Spec.on_event (current_sample u) E));
     current_sample := snd (Spec.on_event (current_sample u) E) |}.
Proof.
  destruct u as [out R].
  destruct E; cbn [sample_callback Spec.on_event fst snd outfile
                    current_sample with_sample];
    try (now rewrite append_nil_r).
  now rewrite write_sample_to_csv_flush.
Qed.

(** Delivering a list of events is [deliver] of the specification. *)
Lemma deliver_all_deliver (events : list dc_sample)
    (u : callback_userdata_t) :
  deliver_all events u =
  {| outfile :=
       outfile u ++ Spec.csv_lines (fst (Spec.deliver (current_sample u) events));
     current_sample := snd (Spec.deliver (current_sample u) events) |}.
Proof.
  revert u. induction events as [|E rest IH]; intros u.
  - destruct u as [out R]. cbn. now rewrite append_nil_r.
  - unfold deliver_all in *. cbn [fold_left].
    rewrite IH, sample_callback_on_event.
    cbn [outfile current_sample Spec.deliver].
    destruct (Spec.on_event (current_sample u) E) as [emitted R'].
    cbn [fst snd].
    destruct (Spec.deliver R' rest) as [later R''].
    cbn [fst snd]. now rewrite csv_lines_app, append_assoc.
Qed.

Lemma deliver_all_app (a b : list dc_sample) (u : callback_userdata_t) :
  deliver_all (a ++ b) u = deliver_all b (deliver_all a u).
Proof. apply fold_left_app. Qed.

(** Field events neither write to the file nor touch [time] and [dirty]. *)
Lemma deliver_all_no_time (events : list dc_sample)
    (u : callback_userdata_t) :
  no_time events = true ->
  outfile (deliver_all events u) = outfile u /\
  dirty (current_sample (deliver_all events u)) = dirty (current_sample u) /\
  time (current_sample (deliver_all events u)) = time (current_sample u).
Proof.
  revert u. induction events as [|E rest IH]; intros u H; [auto|].
  cbn [no_time forallb] in H. apply andb_true_iff in H as [HE Hrest].
  unfold deliver_all in *. cbn [fold_left].
  destruct (IH (sample_callback E u) Hrest) as (-> & -> & ->).
  destruct E; try discriminate; auto.
Qed.

(** The whole processing writes the header and the completed rows. *)
Lemma main_process_samples_output (parser : dc_parser_t)
    (uninit : sample_data_t) (io : streams) :
  output_file (main_process_samples parser uninit io) =
  output_file io ++ csv_header ++
    Spec.csv_lines (Spec.completed_rows (parser_samples parser)).
Proof.
  unfold main_process_samples, dc_parser_samples_foreach, fprintf.
  cbn [output_file].
  fold (deliver_all (parser_samples parser)
          {| outfile := output_file io ++ csv_header;
             current_sample := reset_sample_data uninit |}).
  rewrite deliver_all_deliver. cbn [outfile current_sample].
  rewrite write_sample_to_csv_flush, reset_sample_data_default.
  unfold Spec.completed_rows, Spec.finish.
  destruct (Spec.deliver Spec.default_row (parser_samples parser))
    as [emitted R].
  cbn [fst snd]. now rewrite csv_lines_app, !append_assoc.
Qed.

End Accumulator.

(* ================================================================== *)
(** ** Properties of the accumulator                                   *)
(* ================================================================== *)

Section Rows.

(** Field events after a Time event build [row_of]. *)
Lemma deliver_all_fields (t : Z) (fields : list dc_sample) (out : FILE) :
  no_time fields = true ->
  deliver_all fields {| outfile := out; current_sample := Spec.fresh_row t |}
  = {| outfile := out; current_sample := row_of t fields |}.
Proof.
  induction fields as [|E fields IH] using rev_ind; intros H.
  - reflexivity.
  - unfold no_time in H. rewrite forallb_app in H.
    apply andb_true_iff in H as [Hfields HE].
    rewrite deliver_all_app, (IH Hfields).
    unfold row_of. rewrite !latest_snoc.
    destruct (or_default (DC_DECO_NDL, 0, zero) (latest deco_of fields))
      as [[ty tm] d] eqn:Hdeco.
    destruct E; try discriminate; cbn; rewrite ?Hdeco; reflexivity.
Qed.

Lemma completed_rows_output (events : list dc_sample) (out : FILE) :
  let u := deliver_all events
             {| outfile := out; current_sample := Spec.default_row |} in
  write_sample_to_csv (outfile u) (current_sample u) =
  out ++ Spec.csv_lines (Spec.completed_rows events).
Proof.
  cbn zeta. rewrite deliver_all_deliver, write_sample_to_csv_flush.
  cbn [outfile current_sample]. unfold Spec.completed_rows, Spec.finish.
  destruct (Spec.deliver Spec.default_row events) as [emitted R].
  cbn [fst snd]. now rewrite csv_lines_app, append_assoc.
Qed.

Lemma flush_dirty (R : sample_data_t) :
  Forall (fun r => dirty r <> 0) (Spec.flush R).
Proof.
  unfold Spec.flush. destruct (Z.eqb_spec (dirty R) 0); auto.
Qed.

Lemma on_event_dirty (R : sample_data_t) (E : dc_sample) :
  Forall (fun r => dirty r <> 0) (fst (Spec.on_event R E)).
Proof.
  destruct E; cbn [Spec.on_event fst]; auto using flush_dirty.
Qed.

Lemma deliver_dirty (events : list dc_sample) (R : sample_data_t) :
  Forall (fun r => dirty r <> 0) (fst (Spec.deliver R events)).
Proof.
  revert R. induction events as [|E rest IH]; intros R; cbn [Spec.deliver].
  - constructor.
  - pose proof (on_event_dirty R E) as HE.
    destruct (Spec.on_event R E) as [emitted R'].
    specialize (IH R').
    destruct (Spec.deliver R' rest) as [later R''].
    cbn [fst] in *. apply Forall_app. auto.
Qed.

Lemma completed_rows_dirty (events : list dc_sample) :
  Forall (fun r => dirty r <> 0) (Spec.completed_rows events).
Proof.
  unfold Spec.completed_rows, Spec.finish.
  pose proof (deliver_dirty events Spec.default_row) as H.
  destruct (Spec.deliver Spec.default_row events) as [emitted R].
  apply Forall_app. split; [exact H | apply flush_dirty].
Qed.

Lemma deliver_no_time (fields : list dc_sample) (R : sample_data_t) :
  no_time fields = true -> fst (Spec.deliver R fields) = [].
Proof.
  revert R. induction fields as [|E rest IH]; intros R H; [reflexivity|].
  cbn [no_time forallb] in H. apply andb_true_iff in H as [HE Hrest].
  cbn [Spec.deliver].
  destruct E; try discriminate; cbn [Spec.on_event];
    match goal with
    | |- context [Spec.deliver ?R' rest] =>
        specialize (IH R' Hrest); destruct (Spec.deliver R' rest)
    end; cbn [fst] in *; subst; reflexivity.
Qed.

Lemma deliver_fields (t : Z) (fields : list dc_sample) :
  no_time fields = true ->
  Spec.deliver (Spec.fresh_row t) fields = ([], row_of t fields).
Proof.
  intros H.
  pose proof (deliver_all_fields t fields "" H) as D.
  rewrite deliver_all_deliver in D. cbn [outfile current_sample] in D.
  pose proof (deliver_no_time fields (Spec.fresh_row t) H) as Hfst.
  destruct (Spec.deliver (Spec.fresh_row t) fields) as [later R].
  cbn [fst snd] in *. subst later.
  apply (f_equal current_sample) in D. cbn [current_sample] in D.
  now subst R.
Qed.

Lemma deliver_app (a b : list dc_sample) (R : sample_data_t) :
  Spec.deliver R (a ++ b) =
  (fst (Spec.deliver R a) ++ fst (Spec.deliver (snd (Spec.deliver R a)) b),
   snd (Spec.deliver (snd (Spec.deliver R a)) b))%list.
Proof.
  revert R. induction a as [|E a IH]; intros R; cbn [app Spec.deliver].
  - cbn [fst snd app]. now destruct (Spec.deliver R b).
  - destruct (Spec.on_event R E) as [emitted R'].
    rewrite (IH R').
    destruct (Spec.deliver R' a) as [e1 R1]. cbn [fst snd].
    destruct (Spec.deliver R1 b) as [e2 R2]. cbn [fst snd].
    now rewrite app_assoc.
Qed.

Lemma deliver_no_time_dirty (events : list dc_sample) (R : sample_data_t) :
  no_time events = true ->
  dirty (snd (Spec.deliver R events)) = dirty R.
Proof.
  intros H.
  pose proof (deliver_all_no_time events
                {| outfile := ""; current_sample := R |} H) as (_ & Hd & _).
  now rewrite deliver_all_deliver in Hd.
Qed.

Lemma completed_rows_no_time (events : list dc_sample) :
  no_time events = true -> Spec.completed_rows events = [].
Proof.
  intros H. unfold Spec.completed_rows, Spec.finish, Spec.flush.
  pose proof (deliver_no_time events Spec.default_row H) as Hfst.
  pose proof (deliver_no_time_dirty events Spec.default_row H) as Hdirty.
  destruct (Spec.deliver Spec.default_row events) as [emitted R].
  cbn [fst snd] in *. subst emitted. rewrite Hdirty. reflexivity.
Qed.

Lemma row_of_dirty (t : Z) (fields : list dc_sample) :
  dirty (row_of t fields) = 1.
Proof.
  unfold row_of.
  now destruct (or_default (DC_DECO_NDL, 0, zero) (latest deco_of fields))
    as [[ty tm] d].
Qed.

Lemma completed_rows_one_time (before : list dc_sample) (t : Z)
    (fields : list dc_sample) :
  no_time before = true -> no_time fields = true ->
  Spec.completed_rows (before ++ DC_SAMPLE_TIME t :: fields)
  = [row_of t fields].
Proof.
  intros Hb Hf. unfold Spec.completed_rows.
  rewrite deliver_app.
  rewrite (deliver_no_time before Spec.default_row Hb).
  pose proof (deliver_no_time_dirty before Spec.default_row Hb) as Hd.
  destruct (snd (Spec.deliver Spec.default_row before)) as
    [tm dp te pp cn sp dty dtm dd di] eqn:E.
  cbn [dirty Spec.default_row] in Hd. subst di.
  cbn [Spec.deliver Spec.on_event].
  rewrite (deliver_fields t fields Hf).
  cbn [Spec.flush dirty Z.eqb fst snd app].
  unfold Spec.finish, Spec.flush. now rewrite row_of_dirty.
Qed.

End Rows.

(* ================================================================== *)
(** ** The claims about the accumulator                                *)
(* ================================================================== *)

(** C1. When a Time event arrives, the row in progress is written
    unchanged as one completed line if and only if it is dirty; the row is
    then the default row with the event's timestamp and [dirty] set. For
    the events [Time=0, Deco={DecoStop,120,9.0}, Time=1000] nothing is
    written before the second Time event, which writes the line with
    [DECOSTOP,120,9.00] and leaves a fresh row for time 1000. *)
Theorem C1_time_event_flushes_then_resets :
  (forall (t : Z) (u : callback_userdata_t),
     let R := current_sample u in
     let u' := sample_callback (DC_SAMPLE_TIME t) u in
     outfile u' =
       (if dirty R =? 0 then outfile u else outfile u ++ Spec.csv_line R) /\
     current_sample u' =
       {| time := t; depth := minus_one; temperature := minus_999;
          ppo2 := minus_one; cns := minus_one; setpoint := minus_one;
          deco_type := DC_DECO_NDL; deco_time := 0; deco_depth := zero;
          dirty := 1 |}) /\
  (forall (out : FILE) (uninit : sample_data_t),
     let u0 := {| outfile := out;
                  current_sample := reset_sample_data uninit |} in
     let u2 := deliver_all
                 [DC_SAMPLE_TIME 0;
                  DC_SAMPLE_DECO DC_DECO_DECOSTOP 120 (double_of_Z 9)] u0 in
     let u3 := sample_callback (DC_SAMPLE_TIME 1000) u2 in
     outfile u2 = out /\
     outfile u3 = out ++ "0,,,,,,DECOSTOP,120,9.00" ++ LF /\
     current_sample u3 = Spec.fresh_row 1000).
Proof.
  split.
  - intros t u R u'. subst R u'. cbn [sample_callback outfile current_sample].
    split; [|reflexivity].
    destruct (Z.eqb_spec (dirty (current_sample u)) 0) as [E|E].
    + now apply write_sample_to_csv_clean.
    + now apply write_sample_to_csv_dirty.
  - intros out uninit u0 u2 u3. subst u0 u2 u3.
    rewrite sample_callback_on_event, deliver_all_deliver.
    cbn [outfile current_sample]. rewrite reset_sample_data_default.
    split; [|split].
    + vm_compute. apply append_nil_r.
    + rewrite append_assoc. f_equal.
    + vm_compute. reflexivity.
Qed.

(** C2. After the delivery of events stops, whatever status the decoding
    pass ended with, [main] runs the finish step: the row in progress is
    written as a last line if and only if it is dirty. The file does not
    depend on the status; a stream that ends right after a Time event
    still gets the line of that event's row; and the events
    [Time=5000, Depth=20] give the single row [5,20.00,,,,,NDL,0,0.00]. *)
Theorem C2_finish_flushes_dirty_row :
  (forall (parser : dc_parser_t) (uninit : sample_data_t) (io : streams),
     let u := deliver_all (parser_samples parser)
                {| outfile := output_file io ++ csv_header;
                   current_sample := reset_sample_data uninit |} in
     output_file (main_process_samples parser uninit io) =
       (if dirty (current_sample u) =? 0 then outfile u
        else outfile u ++ Spec.csv_line (current_sample u)) /\
     String.eqb (output_file (main_process_samples parser uninit io))
                (outfile u)
       = (dirty (current_sample u) =? 0)) /\
  (forall (events : list dc_sample) (fault : dc_status_t)
          (uninit : sample_data_t) (io : streams),
     output_file (main_process_samples
                    {| parser_samples := events; parser_status := fault |}
                    uninit io) =
     output_file (main_process_samples
                    {| parser_samples := events;
                       parser_status := DC_STATUS_SUCCESS |} uninit io)) /\
  (forall (events : list dc_sample) (t : Z) (status : dc_status_t)
          (uninit : sample_data_t) (io : streams),
     let u := deliver_all events
                {| outfile := output_file io ++ csv_header;
                   current_sample := reset_sample_data uninit |} in
     output_file (main_process_samples
                    {| parser_samples := (events ++ [DC_SAMPLE_TIME t])%list;
                       parser_status := status |} uninit io) =
     write_sample_to_csv (outfile u) (current_sample u)
       ++ Spec.csv_line (Spec.fresh_row t)) /\
  (forall (status : dc_status_t) (uninit : sample_data_t) (io : streams),
     output_file (main_process_samples
                    {| parser_samples :=
                         [DC_SAMPLE_TIME 5000; DC_SAMPLE_DEPTH (double_of_Z 20)];
                       parser_status := status |} uninit io) =
     output_file io ++ csv_header ++ "5,20.00,,,,,NDL,0,0.00" ++ LF).
Proof.
  assert (Hfinish :
    forall parser uninit io,
      output_file (main_process_samples parser uninit io) =
      let u := deliver_all (parser_samples parser)
                 {| outfile := output_file io ++ csv_header;
                    current_sample := reset_sample_data uninit |} in
      write_sample_to_csv (outfile u) (current_sample u)).
  { intros parser uninit io. reflexivity. }
  split; [|split; [|split]].
  - intros parser uninit io u. rewrite Hfinish. cbn zeta. fold u.
    split; [|apply write_sample_to_csv_writes].
    destruct (Z.eqb_spec (dirty (current_sample u)) 0) as [E|E].
    + now apply write_sample_to_csv_clean.
    + now apply write_sample_to_csv_dirty.
  - intros events fault uninit io. now rewrite !Hfinish.
  - intros events t status uninit io u. rewrite Hfinish.
    cbn [parser_samples]. cbn zeta. rewrite deliver_all_app. fold u.
    cbn [deliver_all fold_left sample_callback outfile current_sample].
    now apply write_sample_to_csv_dirty.
  - intros status uninit io. rewrite main_process_samples_output.
    do 2 f_equal.
Qed.

(** C3. No row whose dirty flag is false is ever projected:
    [write_sample_to_csv] writes nothing for such a row, each call of the
    callback only writes the lines of dirty rows, and everything a whole
    run writes after the header is the lines of rows that are all dirty. *)
Theorem C3_only_dirty_rows_projected :
  (forall (out : FILE) (R : sample_data_t),
     write_sample_to_csv out R =
       (if dirty R =? 0 then out else out ++ Spec.csv_line R) /\
     String.eqb (write_sample_to_csv out R) out = (dirty R =? 0)) /\
  (forall (E : dc_sample) (u : callback_userdata_t),
     let rows := fst (Spec.on_event (current_sample u) E) in
     outfile (sample_callback E u) = outfile u ++ Spec.csv_lines rows /\
     Forall (fun R => dirty R <> 0) rows) /\
  (forall (parser : dc_parser_t) (uninit : sample_data_t) (io : streams),
     let rows := Spec.completed_rows (parser_samples parser) in
     output_file (main_process_samples parser uninit io) =
       output_file io ++ csv_header ++ Spec.csv_lines rows /\
     Forall (fun R => dirty R <> 0) rows).
Proof.
  split; [|split].
  - intros out R. split; [|apply write_sample_to_csv_writes].
    destruct (Z.eqb_spec (dirty R) 0) as [E|E].
    + now apply write_sample_to_csv_clean.
    + now apply write_sample_to_csv_dirty.
  - intros E u rows. subst rows. split.
    + now rewrite sample_callback_on_event.
    + apply on_event_dirty.
  - intros parser uninit io rows. subst rows. split.
    + apply main_process_samples_output.
    + apply completed_rows_dirty.
Qed.

(** C4. Nothing carries forward from one row into the next. The row a
    Time event starts is the fresh row, whatever the earlier row held, and
    all its optional fields render empty; the row in progress after a Time
    event and the events that follow it does not depend on the state
    before that Time event. The events [Time=0, Depth=10, Time=1000,
    Temp=28] give the rows [(0, depth 10.00, temperature absent)] and
    [(1, depth absent, temperature 28.0)]. *)
Theorem C4_no_field_carries_forward :
  (forall (t : Z) (u : callback_userdata_t),
     current_sample (sample_callback (DC_SAMPLE_TIME t) u) = Spec.fresh_row t) /\
  (forall t : Z,
     Spec.csv_fields (Spec.fresh_row t) =
       [fmt_u (Z.quot t 1000); ""; ""; ""; ""; ""; "NDL"; "0"; "0.00"]) /\
  (forall (t : Z) (events : list dc_sample) (u1 u2 : callback_userdata_t),
     current_sample (deliver_all (DC_SAMPLE_TIME t :: events) u1) =
     current_sample (deliver_all (DC_SAMPLE_TIME t :: events) u2)) /\
  (forall (status : dc_status_t) (uninit : sample_data_t) (io : streams),
     output_file (main_process_samples
                    {| parser_samples :=
                         [DC_SAMPLE_TIME 0; DC_SAMPLE_DEPTH (double_of_Z 10);
                          DC_SAMPLE_TIME 1000;
                          DC_SAMPLE_TEMPERATURE (double_of_Z 28)];
                       parser_status := status |} uninit io) =
     output_file io ++ csv_header
       ++ ("0,10.00,,,,,NDL,0,0.00" ++ LF)
       ++ ("1,,28.0,,,,NDL,0,0.00" ++ LF)) /\
  Spec.completed_rows
    [DC_SAMPLE_TIME 0; DC_SAMPLE_DEPTH (double_of_Z 10);
     DC_SAMPLE_TIME 1000; DC_SAMPLE_TEMPERATURE (double_of_Z 28)] =
    [ {| time := 0; depth := double_of_Z 10; temperature := minus_999;
         ppo2 := minus_one; cns := minus_one; setpoint := minus_one;
         deco_type := DC_DECO_NDL; deco_time := 0; deco_depth := zero;
         dirty := 1 |};
      {| time := 1000; depth := minus_one; temperature := double_of_Z 28;
         ppo2 := minus_one; cns := minus_one; setpoint := minus_one;
         deco_type := DC_DECO_NDL; deco_time := 0; deco_depth := zero;
         dirty := 1 |} ].
Proof.
  split; [|split; [|split; [|split]]]; [| | | |reflexivity].
  - reflexivity.
  - reflexivity.
  - intros t events u1 u2.
    unfold deliver_all. cbn [fold_left].
    fold (deliver_all events (sample_callback (DC_SAMPLE_TIME t) u1)).
    fold (deliver_all events (sample_callback (DC_SAMPLE_TIME t) u2)).
    rewrite !deliver_all_deliver. reflexivity.
  - intros status uninit io. rewrite main_process_samples_output.
    do 2 f_equal.
Qed.

(** C5. A sequence with exactly one Time event, followed by field
    events: the finish step yields exactly one completed row, [row_of], in
    which each field holds the payload of the latest event of its kind
    after the Time event, and every field without such an event is absent
    or at its default. (Events delivered before the Time event, if any,
    leave no trace.) *)
Theorem C5_one_row_latest_values (before : list dc_sample) (t : Z)
    (fields : list dc_sample) (status : dc_status_t)
    (uninit : sample_data_t) (io : streams) :
  no_time before = true ->
  no_time fields = true ->
  let events := (before ++ DC_SAMPLE_TIME t :: fields)%list in
  let parser := {| parser_samples := events; parser_status := status |} in
  let R := row_of t fields in
  output_file (main_process_samples parser uninit io) =
    output_file io ++ csv_header ++ Spec.csv_line R /\
  Spec.completed_rows events = [R] /\
  time R = t /\ dirty R = 1 /\
  depth R = or_default minus_one (latest depth_of fields) /\
  temperature R = or_default minus_999 (latest temperature_of fields) /\
  ppo2 R = or_default minus_one (latest ppo2_of fields) /\
  cns R = or_default minus_one (latest cns_of fields) /\
  setpoint R = or_default minus_one (latest setpoint_of fields) /\
  (deco_type R, deco_time R, deco_depth R) =
    or_default (DC_DECO_NDL, 0, zero) (latest deco_of fields).
Proof.
  intros Hb Hf events parser R. subst events parser R.
  rewrite main_process_samples_output. cbn [parser_samples].
  rewrite (completed_rows_one_time before t fields Hb Hf).
  split; [reflexivity|]. split; [reflexivity|].
  unfold row_of.
  destruct (or_default (DC_DECO_NDL, 0, zero) (latest deco_of fields))
    as [[ty tm] d].
  cbn. repeat split.
Qed.

Lemma C5_one_row_latest_values_witness :
  no_time [] = true /\
  no_time [DC_SAMPLE_DEPTH (double_of_Z 10); DC_SAMPLE_OTHER;
           DC_SAMPLE_DEPTH (double_of_Z 20)] = true /\
  output_file
    (main_process_samples
       {| parser_samples :=
            [DC_SAMPLE_TIME 5000; DC_SAMPLE_DEPTH (double_of_Z 10);
             DC_SAMPLE_OTHER; DC_SAMPLE_DEPTH (double_of_Z 20)];
          parser_status := DC_STATUS_SUCCESS |}
       example_row {| output_file := ""; stderr := "" |})
  = csv_header ++ "5,20.00,,,,,NDL,0,0.00" ++ LF.
Proof.
  split; [reflexivity|]. split; [reflexivity|].
  destruct (C5_one_row_latest_values [] 5000
              [DC_SAMPLE_DEPTH (double_of_Z 10); DC_SAMPLE_OTHER;
               DC_SAMPLE_DEPTH (double_of_Z 20)]
              DC_STATUS_SUCCESS example_row
              {| output_file := ""; stderr := "" |}
              eq_refl eq_refl) as [H _].
  exact H.
Defined.

(** C6. A stream without Time events, processed and finished, emits no
    row: the file holds the header and nothing else. *)
Theorem C6_no_time_event_no_row (events : list dc_sample)
    (status : dc_status_t) (uninit : sample_data_t) (io : streams) :
  no_time events = true ->
  output_file (main_process_samples
                 {| parser_samples := events; parser_status := status |}
                 uninit io) = output_file io ++ csv_header /\
  Spec.completed_rows events = [].
Proof.
  intros H. rewrite main_process_samples_output. cbn [parser_samples].
  rewrite (completed_rows_no_time events H).
  split; [|reflexivity].
  change (Spec.csv_lines []) with "". now rewrite append_nil_r.
Qed.

Lemma C6_no_time_event_no_row_witness :
  no_time [DC_SAMPLE_DEPTH (double_of_Z 10); DC_SAMPLE_OTHER] = true /\
  output_file
    (main_process_samples
       {| parser_samples := [DC_SAMPLE_DEPTH (double_of_Z 10); DC_SAMPLE_OTHER];
          parser_status := DC_STATUS_SUCCESS |}
       example_row {| output_file := ""; stderr := "" |})
  = csv_header.
Proof.
  split; [reflexivity|].
  destruct (C6_no_time_event_no_row
              [DC_SAMPLE_DEPTH (double_of_Z 10); DC_SAMPLE_OTHER]
              DC_STATUS_SUCCESS example_row
              {| output_file := ""; stderr := "" |} eq_refl)
    as [H _].
  exact H.
Defined.

(* ================================================================== *)
(** ** Properties of the projection                                    *)
(* ================================================================== *)

Section Projection.

Lemma count_newlines_app (a b : string) :
  count_newlines (a ++ b) = (count_newlines a + count_newlines b)%nat.
Proof.
  induction a as [|c a IH]; cbn [append count_newlines]; [reflexivity|].
  rewrite IH. lia.
Qed.

Lemma no_separator_count_newlines (s : string) :
  no_separator s = true -> count_newlines s = O.
Proof.
  induction s as [|c s IH]; [reflexivity|].
  cbn [no_separator all_chars count_newlines]. intros H.
  apply andb_true_iff in H as [Hc Hs]. fold (no_separator s) in Hs.
  unfold is_separator in Hc.
  destruct (Ascii.eqb c (ascii_of_nat 10)).
  - now rewrite orb_true_r in Hc.
  - now rewrite (IH Hs).
Qed.

Lemma concat_commas_count_newlines (fields : list string) :
  Forall (fun f => no_separator f = true) fields ->
  count_newlines (String.concat "," fields) = O.
Proof.
  induction 1 as [|f fs Hf Hfs IH]; [reflexivity|].
  destruct fs as [|g fs].
  - now apply no_separator_count_newlines.
  - change (String.concat "," (f :: g :: fs))
      with (f ++ "," ++ String.concat "," (g :: fs)).
    rewrite !count_newlines_app, IH, (no_separator_count_newlines f Hf).
    reflexivity.
Qed.

Lemma line_of_fields_one_line (fields : list string) :
  Forall (fun f => no_separator f = true) fields ->
  count_newlines (line_of_fields fields) = 1%nat.
Proof.
  intros H. unfold line_of_fields.
  now rewrite count_newlines_app, concat_commas_count_newlines.
Qed.

Lemma deco_status_token_cases (ty : Z) :
  Spec.deco_status_token ty = "NDL" \/
  Spec.deco_status_token ty = "DECOSTOP" \/
  Spec.deco_status_token ty = "SAFETYSTOP".
Proof.
  unfold Spec.deco_status_token.
  destruct (ty =? DC_DECO_DECOSTOP), (ty =? DC_DECO_SAFETYSTOP); auto.
Qed.

Lemma optional_field_no_separator (present : bool) (p : nat) (v : double) :
  no_separator (Spec.optional_field present (fmt_f p v)) = true.
Proof.
  destruct present; [apply fmt_f_no_separator | reflexivity].
Qed.

Lemma csv_fields_no_separator (R : sample_data_t) :
  Forall (fun f => no_separator f = true) (Spec.csv_fields R).
Proof.
  unfold Spec.csv_fields.
  repeat (constructor;
          try apply optional_field_no_separator;
          try apply fmt_f_no_separator;
          try apply decimal_no_separator).
  destruct (deco_status_token_cases (deco_type R)) as [-> | [-> | ->]];
    reflexivity.
Qed.

(** A line determines its fields. *)
Lemma line_of_fields_inj (f1 f2 : list string) :
  f1 <> [] -> f2 <> [] ->
  Forall (fun f => no_separator f = true) f1 ->
  Forall (fun f => no_separator f = true) f2 ->
  line_of_fields f1 = line_of_fields f2 -> f1 = f2.
Proof.
  intros N1 N2 H1 H2 E.
  rewrite <- (split_commas_concat f1 N1 H1),
          <- (split_commas_concat f2 N2 H2).
  f_equal. unfold line_of_fields in E.
  revert E. generalize (String.concat "," f2). generalize (String.concat "," f1).
  induction s as [|c s IH]; intros [|c' s']; cbn [append]; intros E.
  - reflexivity.
  - injection E as _ E. destruct s'; discriminate.
  - injection E as _ E. destruct s; discriminate.
  - injection E as -> E. f_equal. now apply IH.
Qed.

Lemma decimal_field_fmt_f (p : nat) (v : double) :
  p <> O -> decimal_field p v (fmt_f p v).
Proof.
  intros Hp. split; [reflexivity|].
  now apply fmt_f_decimal_places.
Qed.

Lemma optional_decimal_field_fmt_f (p : nat) (present : bool) (v : double) :
  p <> O ->
  optional_decimal_field p present v
    (Spec.optional_field present (fmt_f p v)).
Proof.
  intros Hp. destruct present; split; intros H; try discriminate;
    cbn [Spec.optional_field]; [now apply decimal_field_fmt_f | reflexivity].
Qed.

Lemma SFcompare_antisym (a b : double) (c : comparison) :
  SFcompare a b = Some c -> SFcompare b a = Some (CompOpp c).
Proof.
  destruct a as [sa|sa| |sa ma ea], b as [sb|sb| |sb mb eb]; cbn [SFcompare];
    intros H; try discriminate; injection H as <-;
    try (destruct sa; reflexivity); try (destruct sb; reflexivity);
    try (destruct sa, sb; reflexivity).
  destruct sa, sb; try reflexivity;
    rewrite (Z.compare_antisym ea eb);
    destruct (ea ?= eb); cbn [CompOpp]; try reflexivity;
    pose proof (Pos.compare_cont_antisym ma mb Eq) as A; cbn [CompOpp] in A;
    change PosDef.Pos.compare_cont with Pos.compare_cont; rewrite <- A;
    destruct (Pos.compare_cont Eq ma mb); reflexivity.
Qed.

(** [x <= y] excludes [x > y]. *)
Lemma double_le_not_gt (x y : double) :
  SFleb x y = true -> double_gt x y = false.
Proof.
  unfold SFleb, double_gt, SFltb.
  destruct (SFcompare x y) as [c|] eqn:E; [|discriminate].
  rewrite (SFcompare_antisym x y c E).
  destruct c; try discriminate; reflexivity.
Qed.

(** [x < y] excludes [x >= y]. *)
Lemma double_lt_not_ge (x y : double) :
  double_lt x y = true -> double_ge x y = false.
Proof.
  unfold double_lt, double_ge, SFleb, SFltb.
  destruct (SFcompare x y) as [c|] eqn:E; [|discriminate].
  rewrite (SFcompare_antisym x y c E).
  destruct c; try discriminate; reflexivity.
Qed.

End Projection.

(* ================================================================== *)
(** ** The claims about the projection                                 *)
(* ================================================================== *)

(** C7, as amended. The projection of a dirty row writes exactly one line
    of nine fields in the order time, depth, temperature, ppo2, cns,
    setpoint, deco_status, deco_time, deco_depth. An optional field is
    empty when absent; when present it is the ["%.2f"] conversion of the
    value (depth, ppo2, cns, setpoint) or its ["%.1f"] conversion
    (temperature), which has exactly 2 (1) decimal places when the value
    is finite. The status is one of the tokens NDL, DECOSTOP, SAFETYSTOP,
    the deco time an unsigned integer, and the deco depth is the ["%.2f"]
    conversion of the value, with 2 decimal places when it is finite. *)
Theorem C7_projection_renders_one_line (out : FILE) (R : sample_data_t) :
  dirty R <> 0 ->
  exists f_time f_depth f_temperature f_ppo2 f_cns f_setpoint
         f_deco_status f_deco_time f_deco_depth,
    let fields := [f_time; f_depth; f_temperature; f_ppo2; f_cns;
                   f_setpoint; f_deco_status; f_deco_time; f_deco_depth] in
    write_sample_to_csv out R = out ++ line_of_fields fields /\
    Forall (fun f => no_separator f = true) fields /\
    count_newlines (line_of_fields fields) = 1%nat /\
    (f_time = fmt_u (Z.quot (time R) 1000) /\ unsigned_integer_text f_time) /\
    optional_decimal_field 2 (double_ge (depth R) zero) (depth R) f_depth /\
    optional_decimal_field 1 (double_gt (temperature R) minus_999)
      (temperature R) f_temperature /\
    optional_decimal_field 2 (double_ge (ppo2 R) zero) (ppo2 R) f_ppo2 /\
    optional_decimal_field 2 (double_ge (cns R) zero) (cns R) f_cns /\
    optional_decimal_field 2 (double_ge (setpoint R) zero) (setpoint R)
      f_setpoint /\
    (f_deco_status =
       (if deco_type R =? DC_DECO_DECOSTOP then "DECOSTOP"
        else if deco_type R =? DC_DECO_SAFETYSTOP then "SAFETYSTOP"
        else "NDL") /\
     (f_deco_status = "NDL" \/ f_deco_status = "DECOSTOP" \/
      f_deco_status = "SAFETYSTOP")) /\
    (f_deco_time = fmt_u (deco_time R) /\ unsigned_integer_text f_deco_time) /\
    decimal_field 2 (deco_depth R) f_deco_depth.
Proof.
  intros Hdirty.
  exists (fmt_u (Z.quot (time R) 1000)),
    (Spec.optional_field (double_ge (depth R) zero) (fmt_f 2 (depth R))),
    (Spec.optional_field (double_gt (temperature R) minus_999)
       (fmt_f 1 (temperature R))),
    (Spec.optional_field (double_ge (ppo2 R) zero) (fmt_f 2 (ppo2 R))),
    (Spec.optional_field (double_ge (cns R) zero) (fmt_f 2 (cns R))),
    (Spec.optional_field (double_ge (setpoint R) zero)
       (fmt_f 2 (setpoint R))),
    (Spec.deco_status_token (deco_type R)),
    (fmt_u (deco_time R)), (fmt_f 2 (deco_depth R)).
  cbn zeta. fold (Spec.csv_fields R).
  split; [now apply write_sample_to_csv_dirty|].
  split; [apply csv_fields_no_separator|].
  split; [apply line_of_fields_one_line, csv_fields_no_separator|].
  split; [split; [reflexivity | apply fmt_u_unsigned_integer_text]|].
  do 5 (split; [apply optional_decimal_field_fmt_f; discriminate|]).
  split; [split; [reflexivity | apply deco_status_token_cases]|].
  split; [split; [reflexivity | apply fmt_u_unsigned_integer_text]|].
  apply decimal_field_fmt_f. discriminate.
Qed.

Lemma C7_projection_renders_one_line_witness :
  dirty example_row <> 0 /\
  exists fields : list string,
    write_sample_to_csv "" example_row = "" ++ line_of_fields fields /\
    length fields = 9%nat.
Proof.
  split; [discriminate|].
  destruct (C7_projection_renders_one_line "" example_row)
    as (f1 & f2 & f3 & f4 & f5 & f6 & f7 & f8 & f9 & H & _);
    [discriminate|].
  exists [f1; f2; f3; f4; f5; f6; f7; f8; f9].
  split; [exact H | reflexivity].
Defined.

(** A text with decimal places starts with a minus sign or a digit. *)
Lemma decimal_places_first_char (p : nat) (c : ascii) (rest : string) :
  decimal_places p (String c rest) ->
  c = "-"%char \/ is_digit c = true.
Proof.
  intros (sign & int & frac & E & Hsign & (Hne & Hdigits) & _).
  destruct Hsign as [-> | ->].
  - destruct int as [|d int]; [contradiction|].
    cbn in E. injection E as -> _. right.
    unfold all_digits in Hdigits. cbn [all_chars] in Hdigits.
    now apply andb_true_iff in Hdigits as [Hd _].
  - cbn in E. injection E as -> _. now left.
Qed.

(** C7, counterexample. A dirty row whose depth is plus infinity and
    whose deco depth is a NaN: the depth is present, the line is
    [0,inf,,,,,NDL,0,nan], and neither the depth field nor the deco depth
    field has decimal places. *)
Lemma C7_counterexample_non_finite_row :
  dirty non_finite_row <> 0 /\
  double_ge (depth non_finite_row) zero = true /\
  write_sample_to_csv "" non_finite_row = "0,inf,,,,,NDL,0,nan" ++ LF /\
  ~ (exists f_time f_depth f_temperature f_ppo2 f_cns f_setpoint
            f_deco_status f_deco_time f_deco_depth,
       let fields := [f_time; f_depth; f_temperature; f_ppo2; f_cns;
                      f_setpoint; f_deco_status; f_deco_time;
                      f_deco_depth] in
       write_sample_to_csv "" non_finite_row = "" ++ line_of_fields fields /\
       Forall (fun f => no_separator f = true) fields /\
       (decimal_places 2 f_depth \/ decimal_places 2 f_deco_depth)).
Proof.
  split; [discriminate|]. split; [reflexivity|]. split; [reflexivity|].
  intros (f1 & f2 & f3 & f4 & f5 & f6 & f7 & f8 & f9 & Hw & Hsep & Hdec).
  cbn zeta in Hw, Hsep.
  rewrite write_sample_to_csv_dirty in Hw by discriminate.
  apply append_inv_head in Hw.
  change (Spec.csv_line non_finite_row)
    with (line_of_fields (Spec.csv_fields non_finite_row)) in Hw.
  apply line_of_fields_inj in Hw;
    [| discriminate | discriminate | apply csv_fields_no_separator
     | exact Hsep].
  assert (E : Spec.csv_fields non_finite_row =
              ["0"; "inf"; ""; ""; ""; ""; "NDL"; "0"; "nan"])
    by reflexivity.
  rewrite E in Hw. injection Hw as _ <- _ _ _ _ _ _ <-.
  destruct Hdec as [H | H];
    apply decimal_places_first_char in H as [H | H]; discriminate.
Qed.

(** C8. The time field is the timestamp in milliseconds divided by 1000,
    truncated to whole seconds; a timestamp of 1999 ms is written as 1. *)
Theorem C8_time_in_whole_seconds (out : FILE) (R : sample_data_t) :
  dirty R <> 0 -> is_uint (time R) ->
  exists seconds : Z,
    1000 * seconds <= time R < 1000 * seconds + 1000 /\
    (exists rest : list string,
       write_sample_to_csv out R =
         out ++ line_of_fields (decimal seconds :: rest) /\
       Forall (fun f => no_separator f = true) (decimal seconds :: rest)) /\
    (exists rest : list string,
       write_sample_to_csv out (set_time 1999 R) =
         out ++ line_of_fields ("1" :: rest) /\
       Forall (fun f => no_separator f = true) ("1" :: rest)).
Proof.
  intros Hdirty Htime. exists (Z.quot (time R) 1000).
  unfold is_uint, UINT_WIDTH in Htime.
  change (2 ^ 32) with 4294967296 in Htime.
  assert (Hq : 0 <= Z.quot (time R) 1000 < 4294967296)
    by (Z.to_euclidean_division_equations; lia).
  split; [Z.to_euclidean_division_equations; lia|].
  split.
  - exists (tl (Spec.csv_fields R)).
    assert (E : decimal (Z.quot (time R) 1000) :: tl (Spec.csv_fields R)
                = Spec.csv_fields R).
    { unfold Spec.csv_fields, fmt_u, to_uint, UINT_WIDTH. cbn [tl].
      change (2 ^ 32) with 4294967296.
      rewrite (Z.mod_small _ _ Hq). reflexivity. }
    rewrite E. split; [now apply write_sample_to_csv_dirty|].
    apply csv_fields_no_separator.
  - exists (tl (Spec.csv_fields (set_time 1999 R))).
    change ("1" :: tl (Spec.csv_fields (set_time 1999 R)))
      with (Spec.csv_fields (set_time 1999 R)).
    split; [now apply write_sample_to_csv_dirty|].
    apply csv_fields_no_separator.
Qed.

Lemma C8_time_in_whole_seconds_witness :
  dirty example_row <> 0 /\ is_uint (time example_row) /\
  exists seconds : Z,
    1000 * seconds <= time example_row < 1000 * seconds + 1000.
Proof.
  assert (Hd : dirty example_row <> 0) by discriminate.
  assert (Ht : is_uint (time example_row)) 
    by (vm_compute; split; [discriminate | reflexivity]).
  split; [exact Hd|]. split; [exact Ht|].
  destruct (C8_time_in_whole_seconds "" example_row Hd Ht) as (q & Hq & _).
  exists q. exact Hq.
Defined.

(** C9. Projecting the same row twice writes the same text twice: the
    text depends on the row alone, not on what was written before. *)
Theorem C9_projection_deterministic (R : sample_data_t) (out1 out2 : FILE) :
  exists text : string,
    text = (if dirty R =? 0 then "" else Spec.csv_line R) /\
    write_sample_to_csv out1 R = out1 ++ text /\
    write_sample_to_csv out2 R = out2 ++ text /\
    write_sample_to_csv (write_sample_to_csv out1 R) R = (out1 ++ text) ++ text.
Proof.
  exists (if dirty R =? 0 then "" else Spec.csv_line R).
  split; [reflexivity|].
  destruct (Z.eqb_spec (dirty R) 0) as [E|E].
  - rewrite !write_sample_to_csv_clean by assumption.
    now rewrite !append_nil_r.
  - now rewrite !write_sample_to_csv_dirty by assumption.
Qed.

(** C10. Presence is decided by sentinel comparisons. Depth, ppo2, cns
    and setpoint are written if and only if the stored value is [>= 0.0],
    so a negative value, the reset sentinel -1.0 included, gives an empty
    field; temperature is written if and only if the stored value is
    [> -999.0], so a temperature of -999.0 or below is stored in the row
    and gives an empty field. *)
Theorem C10_presence_by_sentinel (out : FILE) (R : sample_data_t) :
  dirty R <> 0 ->
  exists f_time f_depth f_temperature f_ppo2 f_cns f_setpoint rest,
    let fields := f_time :: f_depth :: f_temperature :: f_ppo2 :: f_cns
                    :: f_setpoint :: rest in
    write_sample_to_csv out R = out ++ line_of_fields fields /\
    Forall (fun f => no_separator f = true) fields /\
    ((f_depth <> "" <-> double_ge (depth R) zero = true) /\
     (f_ppo2 <> "" <-> double_ge (ppo2 R) zero = true) /\
     (f_cns <> "" <-> double_ge (cns R) zero = true) /\
     (f_setpoint <> "" <-> double_ge (setpoint R) zero = true) /\
     (f_temperature <> "" <->
        double_gt (temperature R) minus_999 = true)) /\
    ((double_lt (depth R) zero = true -> f_depth = "") /\
     (double_lt (ppo2 R) zero = true -> f_ppo2 = "") /\
     (double_lt (cns R) zero = true -> f_cns = "") /\
     (double_lt (setpoint R) zero = true -> f_setpoint = "") /\
     (SFleb (temperature R) minus_999 = true -> f_temperature = "")) /\
    (double_lt minus_one zero = true /\
     depth (reset_sample_data R) = minus_one /\
     ppo2 (reset_sample_data R) = minus_one /\
     cns (reset_sample_data R) = minus_one /\
     setpoint (reset_sample_data R) = minus_one /\
     temperature (reset_sample_data R) = minus_999) /\
    (forall (x : double) (u : callback_userdata_t),
       temperature
         (current_sample (sample_callback (DC_SAMPLE_TEMPERATURE x) u)) = x).
Proof.
  intros Hdirty.
  exists (fmt_u (Z.quot (time R) 1000)),
    (Spec.optional_field (double_ge (depth R) zero) (fmt_f 2 (depth R))),
    (Spec.optional_field (double_gt (temperature R) minus_999)
       (fmt_f 1 (temperature R))),
    (Spec.optional_field (double_ge (ppo2 R) zero) (fmt_f 2 (ppo2 R))),
    (Spec.optional_field (double_ge (cns R) zero) (fmt_f 2 (cns R))),
    (Spec.optional_field (double_ge (setpoint R) zero)
       (fmt_f 2 (setpoint R))),
    [Spec.deco_status_token (deco_type R);
     fmt_u (deco_time R); fmt_f 2 (deco_depth R)].
  cbn zeta. fold (Spec.csv_fields R).
  assert (Hiff : forall (b : bool) (p : nat) (v : double),
            Spec.optional_field b (fmt_f p v) <> "" <-> b = true).
  { intros b p v. destruct b; cbn [Spec.optional_field]; split; intros H;
      try reflexivity; try discriminate; try congruence.
    apply fmt_f_nonempty. }
  assert (Hneg : forall (p : nat) (v : double),
            double_lt v zero = true ->
            Spec.optional_field (double_ge v zero) (fmt_f p v) = "").
  { intros p v H. now rewrite (double_lt_not_ge v zero H). }
  split; [now apply write_sample_to_csv_dirty|].
  split; [apply csv_fields_no_separator|].
  split; [repeat split; apply Hiff|].
  split.
  - repeat split; try apply Hneg.
    intros H. now rewrite (double_le_not_gt _ _ H).
  - split; [repeat split|]. intros x u. reflexivity.
Qed.

Lemma C10_presence_by_sentinel_witness :
  dirty example_row <> 0 /\
  exists fields : list string,
    write_sample_to_csv "" example_row = "" ++ line_of_fields fields /\
    nth 3 fields "?" = "".
Proof.
  split; [discriminate|].
  destruct (C10_presence_by_sentinel "" example_row)
    as (f1 & f2 & f3 & f4 & f5 & f6 & rest & H & _ & _ & Hneg & _);
    [discriminate|].
  exists (f1 :: f2 :: f3 :: f4 :: f5 :: f6 :: rest).
  split; [exact H|].
  destruct Hneg as (_ & Hppo2 & _). apply Hppo2. reflexivity.
Defined.

(* ================================================================== *)
(** ** The name of the output file                                     *)
(* ================================================================== *)

Section OutputFilename.

Lemma string_take_length (n : nat) (s : string) :
  (String.length (string_take n s) <= n)%nat.
Proof.
  revert s. induction n as [|n IH]; intros [|c s]; cbn; try lia.
  specialize (IH s). lia.
Qed.

Lemma string_take_all (n : nat) (s : string) :
  (String.length s <= n)%nat -> string_take n s = s.
Proof.
  revert s. induction n as [|n IH]; intros [|c s]; cbn; intros H;
    try reflexivity; try lia.
  rewrite IH by lia. reflexivity.
Qed.

Lemma string_take_app (a b : string) :
  string_take (String.length a) (a ++ b) = a.
Proof.
  induction a as [|c a IH]; cbn.
  - now destruct b.
  - now rewrite IH.
Qed.

Lemma string_take_take (n m : nat) (s : string) :
  (n <= m)%nat -> string_take n (string_take m s) = string_take n s.
Proof.
  revert m s. induction n as [|n IH]; intros m s H; [reflexivity|].
  destruct m as [|m]; [lia|]. destruct s as [|c s]; [reflexivity|].
  cbn. rewrite IH by lia. reflexivity.
Qed.

(** A prefix is what remains of a text when its end is cut off. *)
Lemma string_take_prefix (n : nat) (s : string) :
  exists rest, s = string_take n s ++ rest.
Proof.
  revert s. induction n as [|n IH]; intros s.
  - exists s. now destruct s.
  - destruct s as [|c s]; [now exists ""|].
    destruct (IH s) as [rest E]. exists rest. cbn. now rewrite <- E.
Qed.

Lemma strrchr_none (s : string) (c : ascii) :
  strrchr s c = None <-> lacks c s = true.
Proof.
  unfold lacks. induction s as [|ch s IH]; cbn; [tauto|].
  destruct (strrchr s c) as [i|].
  - split; [discriminate|]. intros H.
    apply andb_true_iff in H as [_ H]. apply IH in H. discriminate.
  - destruct (Ascii.eqb ch c); cbn; [split; discriminate|].
    split; intros _; [now apply IH | reflexivity].
Qed.

(** At the index [strrchr] returns the text splits into what is before
    the last [c], the [c], and a rest without [c]. *)
Lemma strrchr_some (s : string) (c : ascii) (i : nat) :
  strrchr s c = Some i <->
  exists rest, s = string_take i s ++ String c rest /\
               String.length (string_take i s) = i /\ lacks c rest = true.
Proof.
  unfold lacks. revert i. induction s as [|ch s IH]; intros i; cbn.
  - split; [discriminate|]. intros (rest & E & _).
    destruct i; discriminate.
  - destruct (strrchr s c) as [j|] eqn:L.
    + split.
      * intros [= <-]. destruct (proj1 (IH j) eq_refl) as (rest & E & Hl & Hr).
        exists rest. cbn. rewrite <- E, Hl. auto.
      * intros (rest & E & Hl & Hr). destruct i as [|i].
        -- cbn in E. injection E as -> ->.
           assert (X : strrchr rest c = None)
             by (apply strrchr_none; exact Hr).
           congruence.
        -- cbn in E, Hl. injection E as E. injection Hl as Hl.
           assert (X : Some j = Some i) by (apply IH; exists rest; auto).
           congruence.
    + assert (Hs : all_chars (fun ch0 => negb (Ascii.eqb ch0 c)) s = true)
        by now apply strrchr_none.
      destruct (Ascii.eqb_spec ch c) as [->|Hne].
      * split.
        -- intros [= <-]. exists s. cbn. auto.
        -- intros (rest & E & Hl & Hr). destruct i as [|i]; [reflexivity|].
           exfalso. cbn in E. injection E as E.
           rewrite E, all_chars_app in Hs.
           apply andb_true_iff in Hs as [_ Hs]. cbn in Hs.
           rewrite Ascii.eqb_refl in Hs. discriminate.
      * split; [discriminate|].
        intros (rest & E & Hl & Hr). exfalso. destruct i as [|i].
        -- cbn in E. injection E as E _. contradiction.
        -- cbn in E. injection E as E.
           rewrite E, all_chars_app in Hs.
           apply andb_true_iff in Hs as [_ Hs]. cbn in Hs.
           rewrite Ascii.eqb_refl in Hs. discriminate.
Qed.

Lemma lacks_app (c : ascii) (a b : string) :
  lacks c (a ++ b) = lacks c a && lacks c b.
Proof. apply all_chars_app. Qed.

(** The last [c] of [stem ++ c ++ ext], when [ext] has none. *)
Lemma strrchr_last (stem ext : string) (c : ascii) :
  lacks c ext = true ->
  strrchr (stem ++ String c ext) c = Some (String.length stem).
Proof.
  intros H. apply strrchr_some. exists ext.
  rewrite string_take_app. auto.
Qed.

Lemma string_take_app_le (n : nat) (a b : string) :
  (String.length a <= n)%nat ->
  string_take n (a ++ b) = a ++ string_take (n - String.length a) b.
Proof.
  revert n. induction a as [|c a IH]; intros n H; cbn.
  - now rewrite Nat.sub_0_r.
  - destruct n as [|n]; cbn in H; [lia|]. cbn.
    rewrite IH by lia. reflexivity.
Qed.

Lemma lacks_string_take (c : ascii) (n : nat) (s : string) :
  lacks c s = true -> lacks c (string_take n s) = true.
Proof.
  unfold lacks. revert s. induction n as [|n IH]; intros [|ch s] H;
    try reflexivity.
  cbn in *. apply andb_true_iff in H as [-> H]. now apply IH.
Qed.

(** The name up to a last dot that lies within the part that is kept. *)
Lemma output_filename_of_dot (stem ext : string) :
  (String.length stem <= OUTPUT_FILENAME_SIZE - 6)%nat ->
  lacks "." ext = true ->
  output_filename_of (stem ++ String "." ext) = stem ++ ".csv".
Proof.
  intros Hlen Hext. unfold output_filename_of, OUTPUT_FILENAME_SIZE in *.
  rewrite string_take_app_le by lia.
  set (k := (256 - 5 - String.length stem)%nat).
  assert (Hk : exists k', k = S k') by (exists (k - 1)%nat; lia).
  destruct Hk as [k' ->]. cbn [string_take].
  rewrite strrchr_last by now apply lacks_string_take.
  unfold strcpy_at. now rewrite string_take_app.
Qed.

(** The name when the part that is kept holds no dot. *)
Lemma output_filename_of_no_dot (name rest : string) :
  lacks "." name = true ->
  (String.length name = OUTPUT_FILENAME_SIZE - 5 \/
   (String.length name <= OUTPUT_FILENAME_SIZE - 5 /\ rest = ""))%nat ->
  output_filename_of (name ++ rest) = name ++ ".csv".
Proof.
  intros Hname Hlen. unfold output_filename_of, OUTPUT_FILENAME_SIZE in *.
  assert (E : string_take (256 - 5) (name ++ rest) = name).
  { destruct Hlen as [Hlen | [Hlen ->]].
    - rewrite <- Hlen. apply string_take_app.
    - rewrite append_nil_r. now apply string_take_all. }
  rewrite E. apply strrchr_none in Hname. now rewrite Hname.
Qed.

End OutputFilename.

(** X1. Whatever the input name, the output name ends in [.csv] after a
    prefix of the input name of at most 251 characters, and fits the
    256-byte buffer together with its terminator. *)
Theorem output_filename_fits_buffer (input_filename : string) :
  exists stem rest : string,
    output_filename_of input_filename = stem ++ ".csv" /\
    input_filename = stem ++ rest /\
    (String.length stem <= 251)%nat /\
    (String.length (output_filename_of input_filename) + 1
       <= OUTPUT_FILENAME_SIZE)%nat.
Proof.
  unfold output_filename_of, OUTPUT_FILENAME_SIZE.
  change (256 - 5)%nat with 251%nat.
  pose proof (string_take_length 251 input_filename) as Hlen.
  destruct (string_take_prefix 251 input_filename) as [rest Hrest].
  destruct (strrchr (string_take 251 input_filename) ".") as [dot|] eqn:D.
  - apply strrchr_some in D as (tail & E & Hd & _).
    unfold strcpy_at.
    assert (Hdot : (dot <= 250)%nat).
    { apply (f_equal String.length) in E.
      rewrite append_length, Hd in E. cbn [String.length] in E. lia. }
    exists (string_take dot (string_take 251 input_filename)),
      (String "." tail ++ rest).
    split; [reflexivity|]. split.
    + rewrite <- append_assoc, <- E. exact Hrest.
    + rewrite append_length, Hd. cbn [String.length]. lia.
  - exists (string_take 251 input_filename), rest. unfold strcat.
    split; [reflexivity|]. split; [exact Hrest|].
    rewrite append_length. cbn [String.length]. lia.
Qed.

(** X2. The extension is replaced: for a name [stem.ext] whose extension
    holds no dot and whose stem has at most 250 characters, the output
    name is [stem.csv], whatever the stem holds (dots and directory
    separators included) and however long the extension is. *)
Theorem output_filename_replaces_extension (stem ext : string) :
  (String.length stem <= 250)%nat ->
  lacks "." ext = true ->
  output_filename_of (stem ++ "." ++ ext) = stem ++ ".csv".
Proof.
  intros Hlen Hext. now apply output_filename_of_dot.
Qed.

Lemma output_filename_replaces_extension_witness :
  (String.length "logs.2023/my_dive" <= 250)%nat /\
  lacks "." "DLF" = true /\
  output_filename_of "logs.2023/my_dive.DLF" = "logs.2023/my_dive.csv".
Proof.
  split; [cbn; lia|]. split; [reflexivity|].
  apply (output_filename_replaces_extension "logs.2023/my_dive" "DLF");
    [cbn; lia | reflexivity].
Defined.

(** X3. A name without any dot, of at most 251 characters, gets [.csv]
    appended. *)
Theorem output_filename_appends_extension (input_filename : string) :
  (String.length input_filename <= 251)%nat ->
  lacks "." input_filename = true ->
  output_filename_of input_filename = input_filename ++ ".csv".
Proof.
  intros Hlen Hdot.
  rewrite <- (append_nil_r input_filename) at 1.
  apply output_filename_of_no_dot; [assumption|]. right. auto.
Qed.

Lemma output_filename_appends_extension_witness :
  (String.length "my_dive" <= 251)%nat /\
  lacks "." "my_dive" = true /\
  output_filename_of "my_dive" = "my_dive.csv".
Proof.
  split; [cbn; lia|]. split; [reflexivity|].
  apply (output_filename_appends_extension "my_dive");
    [cbn; lia | reflexivity].
Defined.

(** X4. Deriving the output name is idempotent: the output name of an
    output name is that same name, so a file that is already the tool's
    output is its own output file. *)
Theorem output_filename_idempotent (input_filename : string) :
  output_filename_of (output_filename_of input_filename)
  = output_filename_of input_filename.
Proof.
  unfold output_filename_of at 2 3. unfold OUTPUT_FILENAME_SIZE.
  change (256 - 5)%nat with 251%nat.
  pose proof (string_take_length 251 input_filename) as Hlen.
  destruct (strrchr (string_take 251 input_filename) ".") as [dot|] eqn:D.
  - apply strrchr_some in D as (tail & E & Hd & _).
    unfold strcpy_at.
    apply output_filename_of_dot; [|reflexivity].
    apply (f_equal String.length) in E.
    rewrite append_length in E. cbn [String.length] in E.
    unfold OUTPUT_FILENAME_SIZE. lia.
  - apply strrchr_none in D. unfold strcat.
    destruct (Nat.eq_dec (String.length (string_take 251 input_filename)) 251)
      as [Hfull|Hshort].
    + apply output_filename_of_no_dot; [assumption|]. now left.
    + apply output_filename_of_dot; [|reflexivity].
      unfold OUTPUT_FILENAME_SIZE. lia.
Qed.

(* ================================================================== *)
(** ** Reading the input file                                          *)
(* ================================================================== *)

Section ReadFile.

Variable env : environment.

Lemma read_file_into_buffer_status (filename : string)
    (buffer : option (list Byte.byte)) (size : Z) (err : FILE) :
  let '(status, _, _, _) :=
    read_file_into_buffer env filename buffer size err in
  (status =? DC_STATUS_SUCCESS) = input_readable env filename.
Proof.
  unfold read_file_into_buffer, input_readable.
  destruct (fopen_rb env filename) as [content|]; [|reflexivity].
  cbn zeta.
  destruct (Z.of_nat (length content) =? 0); [reflexivity|].
  destruct (malloc_ok env (Z.of_nat (length content))); [|reflexivity].
  destruct (fread_count env filename =? Z.of_nat (length content));
    reflexivity.
Qed.

Lemma read_file_into_buffer_readable (filename : string)
    (buffer : option (list Byte.byte)) (size : Z) (err : FILE) :
  input_readable env filename = true ->
  read_file_into_buffer env filename buffer size err =
  (DC_STATUS_SUCCESS, Some (input_bytes env filename),
   Z.of_nat (length (input_bytes env filename)), err).
Proof.
  unfold read_file_into_buffer, input_readable, input_bytes.
  destruct (fopen_rb env filename) as [content|]; [|discriminate].
  cbn zeta.
  destruct (Z.of_nat (length content) =? 0); [discriminate|].
  destruct (malloc_ok env (Z.of_nat (length content))); [|discriminate].
  destruct (fread_count env filename =? Z.of_nat (length content));
    [reflexivity | discriminate].
Qed.

Lemma read_file_into_buffer_unreadable (filename : string)
    (buffer : option (list Byte.byte)) (size : Z) (err : FILE) :
  input_readable env filename = false ->
  exists status buffer' size' message,
    read_file_into_buffer env filename buffer size err =
      (status, buffer', size', err ++ message ++ LF) /\
    (status = DC_STATUS_INVALIDARGS \/ status = DC_STATUS_NOMEMORY \/
     status = DC_STATUS_IO) /\
    message <> "".
Proof.
  unfold read_file_into_buffer, input_readable, fprintf.
  destruct (fopen_rb env filename) as [content|]; cbn zeta.
  - destruct (Z.of_nat (length content) =? 0).
    + intros _.
      exists DC_STATUS_INVALIDARGS, buffer, (Z.of_nat (length content)),
        ("Error: File '" ++ filename ++ "' is empty.").
      split; [now rewrite !append_assoc|]. split; [auto | discriminate].
    + destruct (malloc_ok env (Z.of_nat (length content))).
      * destruct (fread_count env filename =? Z.of_nat (length content));
          [discriminate|].
        intros _.
        exists DC_STATUS_IO, None, (Z.of_nat (length content)),
          ("Error: Failed to read the entire file '" ++ filename ++ "'.").
        split; [now rewrite !append_assoc|]. split; [auto | discriminate].
      * intros _.
        exists DC_STATUS_NOMEMORY, None, (Z.of_nat (length content)),
          "Error: Cannot allocate memory to read file.".
        split; [reflexivity|]. split; [auto | discriminate].
  - intros _.
    exists DC_STATUS_INVALIDARGS, buffer, size,
      ("Error: Cannot open file '" ++ filename ++ "'.").
    split; [now rewrite !append_assoc|]. split; [auto | discriminate].
Qed.

End ReadFile.

(** X5. [read_file_into_buffer] succeeds exactly when the file opens, is
    not empty, the buffer is allocated and every byte is read; the buffer
    then holds the bytes of the file, [size] is their number, which is
    positive, and nothing is printed. Otherwise one error line is added to
    the standard error and the status is INVALIDARGS (no such file, or an
    empty one), NOMEMORY or IO. *)
Theorem read_file_into_buffer_outcome (env : environment)
    (filename : string) (buffer : option (list Byte.byte)) (size : Z)
    (err : FILE) :
  let '(status, buffer', size', err') :=
    read_file_into_buffer env filename buffer size err in
  (status = DC_STATUS_SUCCESS <->
   exists content,
     fopen_rb env filename = Some content /\ content <> [] /\
     malloc_ok env (Z.of_nat (length content)) = true /\
     fread_count env filename = Z.of_nat (length content)) /\
  (status = DC_STATUS_SUCCESS ->
   buffer' = fopen_rb env filename /\
   size' = Z.of_nat (length (input_bytes env filename)) /\
   0 < size' /\ err' = err) /\
  (status <> DC_STATUS_SUCCESS ->
   (exists message, message <> "" /\ err' = err ++ message ++ LF) /\
   (status = DC_STATUS_INVALIDARGS \/ status = DC_STATUS_NOMEMORY \/
    status = DC_STATUS_IO) /\
   (fopen_rb env filename = None \/ fopen_rb env filename = Some [] ->
    status = DC_STATUS_INVALIDARGS /\ buffer' = buffer)).
Proof.
  pose proof (read_file_into_buffer_readable env filename buffer size err)
    as Hyes.
  pose proof (read_file_into_buffer_unreadable env filename buffer size err)
    as Hno.
  assert (Hiff : input_readable env filename = true <->
    exists content,
      fopen_rb env filename = Some content /\ content <> [] /\
      malloc_ok env (Z.of_nat (length content)) = true /\
      fread_count env filename = Z.of_nat (length content)).
  { unfold input_readable.
    destruct (fopen_rb env filename) as [content|].
    - cbn zeta. split.
      + intros H. apply andb_true_iff in H as [H Hread].
        apply andb_true_iff in H as [Hsize Hmalloc].
        exists content. repeat split; auto.
        * intros ->. discriminate.
        * now apply Z.eqb_eq.
      + intros (c & [= <-] & Hne & Hmalloc & Hread).
        rewrite Hmalloc, Hread, Z.eqb_refl.
        destruct content; [contradiction | reflexivity].
    - split; [discriminate|]. intros (c & H & _). discriminate. }
  destruct (input_readable env filename) eqn:R.
  - rewrite (Hyes eq_refl). clear Hyes Hno.
    destruct (proj1 Hiff eq_refl) as (content & Hopen & Hne & _).
    split; [split; [intros _; now apply (proj1 Hiff) | reflexivity]|].
    split.
    + intros _. unfold input_bytes. rewrite Hopen.
      repeat split. destruct content; [contradiction | cbn; lia].
    + intros H. contradiction.
  - destruct (Hno eq_refl) as (status & buffer' & size' & message & E & Hs & Hm).
    rewrite E. clear Hyes Hno.
    assert (Hfail : status <> DC_STATUS_SUCCESS)
      by (destruct Hs as [-> | [-> | ->]]; discriminate).
    split; [split; [contradiction|]|].
    { intros H. apply (proj2 Hiff) in H. discriminate. }
    split; [contradiction|]. intros _.
    split; [exists message; auto|]. split; [exact Hs|].
    unfold read_file_into_buffer in E.
    intros [Hopen | Hopen]; rewrite Hopen in E; cbn in E;
      injection E as <- <- _ _; auto.
Qed.

(* ================================================================== *)
(** ** The whole program                                               *)
(* ================================================================== *)

Section Main.

Variable env : environment.
Variable uninit : sample_data_t.

Lemma find_descriptor_listed :
  freedom_listed env = true <->
  find_descriptor (dc_descriptor_iterator env) <> None.
Proof.
  unfold freedom_listed.
  induction (dc_descriptor_iterator env) as [|d rest IH];
    cbn [existsb find_descriptor]; [split; [discriminate | congruence]|].
  unfold strcmp_eq.
  destruct (String.eqb (vendor d) "Divesoft"
            && String.eqb (product d) "Freedom");
    cbn [orb]; [split; [discriminate | reflexivity] | exact IH].
Qed.

(** The run of [main] when every step of the set-up succeeds. *)
Lemma main_setup_succeeds (argv : list string) :
  setup_succeeds env argv = true ->
  let io := main_process_samples (input_run env argv) uninit
              (Build_streams "" "") in
  exit_code (main env uninit argv) = 0 /\
  proc_stderr (main env uninit argv) = stderr io /\
  csv_file (main env uninit argv) =
    Some (output_filename_of (nth 1 argv ""), output_file io).
Proof.
  unfold setup_succeeds, input_run. cbn zeta. intros H.
  repeat (apply andb_true_iff in H as [H ?]).
  unfold main. rewrite H. cbn [negb].
  match goal with
  | Hh : negb (help_requested argv) = true |- _ =>
      unfold help_requested in Hh; rewrite H in Hh; cbn [andb] in Hh;
      apply negb_true_iff in Hh; unfold strcmp_eq; rewrite Hh
  end.
  match goal with
  | Hc : (dc_context_new env =? DC_STATUS_SUCCESS) = true |- _ =>
      rewrite Hc; cbn [negb]
  end.
  rewrite read_file_into_buffer_readable by assumption.
  cbn [negb Z.eqb DC_STATUS_SUCCESS].
  match goal with
  | Hl : freedom_listed env = true |- _ =>
      apply find_descriptor_listed in Hl;
      destruct (find_descriptor (dc_descriptor_iterator env));
      [|contradiction]
  end.
  destruct (dc_parser_new2 env (input_bytes env (nth 1 argv "")))
    as [status parser].
  cbn [fst snd] in *.
  match goal with
  | Hp : (status =? DC_STATUS_SUCCESS) = true |- _ =>
      rewrite Hp; cbn [negb]
  end.
  match goal with
  | Hw : fopen_w env _ = true |- _ => rewrite Hw; cbn [negb]
  end.
  destruct (main_process_samples (parser_run parser) uninit
              (Build_streams "" "")) as [csv err].
  cbn. auto.
Qed.

(** The run of [main] when a step of the set-up fails, or the command
    line does not name an input file. *)
Lemma main_setup_fails (argv : list string) :
  setup_succeeds env argv = false ->
  csv_file (main env uninit argv) = None /\
  exit_code (main env uninit argv)
    = (if help_requested argv then 0 else 1) /\
  String.eqb (proc_stderr (main env uninit argv)) ""
    = (negb (length argv =? 2)%nat || help_requested argv).
Proof.
  unfold setup_succeeds, help_requested, main. cbn zeta.
  destruct (length argv =? 2)%nat; cbn [negb andb orb]; [|auto].
  unfold strcmp_eq.
  destruct (String.eqb (nth 1 argv "") "--help"
            || String.eqb (nth 1 argv "") "-h"); cbn [negb andb]; [auto|].
  destruct (dc_context_new env =? DC_STATUS_SUCCESS); cbn [negb andb];
    [|intros _; cbn; auto].
  pose proof (read_file_into_buffer_status env (nth 1 argv "") None 0 "")
    as Hstatus.
  destruct (input_readable env (nth 1 argv "")) eqn:R; cbn [andb].
  - rewrite read_file_into_buffer_readable by assumption.
    cbn [negb Z.eqb DC_STATUS_SUCCESS].
    pose proof find_descriptor_listed as Hl.
    destruct (freedom_listed env); cbn [andb].
    + destruct (find_descriptor (dc_descriptor_iterator env));
        [|exfalso; now apply (proj1 Hl)].
      destruct (dc_parser_new2 env (input_bytes env (nth 1 argv "")))
        as [status parser].
      cbn [fst].
      destruct (status =? DC_STATUS_SUCCESS); cbn [negb andb];
        [|intros _; cbn; auto].
      intros ->. cbn. auto.
    + destruct (find_descriptor (dc_descriptor_iterator env));
        [exfalso; assert (X : false = true) by (apply Hl; discriminate);
         discriminate|].
      intros _. cbn. auto.
  - intros _.
    destruct (read_file_into_buffer_unreadable env (nth 1 argv "") None 0 "" R)
      as (status & buffer' & size' & message & E & Hs & Hm).
    rewrite E.
    assert (Hf : (status =? DC_STATUS_SUCCESS) = false)
      by (destruct Hs as [-> | [-> | ->]]; reflexivity).
    rewrite Hf. cbn. split; [reflexivity|]. split; [reflexivity|].
    destruct message; [contradiction | reflexivity].
Qed.

End Main.

Example fmt_0d_pads :
  fmt_0d 4 2023 = "2023" /\ fmt_0d 2 7 = "07" /\ fmt_0d 2 123 = "123" /\
  fmt_0d 4 (-5) = "-005" /\ fmt_0d 2 0 = "00".
Proof. repeat split. Qed.

Lemma main_process_samples_stderr (parser : dc_parser_t)
    (uninit : sample_data_t) (io : streams) :
  stderr (main_process_samples parser uninit io) =
  if parser_status parser =? DC_STATUS_SUCCESS then stderr io
  else stderr io ++ "Error during sample processing (code: "
         ++ fmt_d (parser_status parser) ++ ")" ++ LF.
Proof.
  unfold main_process_samples, dc_parser_samples_foreach. cbn [stderr].
  now destruct (parser_status parser =? DC_STATUS_SUCCESS).
Qed.



(** X7. [main] creates a CSV file exactly when the command line names an
    input file and every step of the set-up succeeds (context, reading a
    non-empty input, the Divesoft Freedom descriptor, the parser, opening
    the output). The file is named by [output_filename_of] and holds the
    header followed by the lines of the completed rows; neither the
    metadata queries nor the status of the decoding pass change it. *)
Theorem main_creates_csv_file (env : environment) (uninit : sample_data_t)
    (argv : list string) :
  csv_file (main env uninit argv) =
  if setup_succeeds env argv
  then Some (output_filename_of (nth 1 argv ""),
             csv_header ++
               Spec.csv_lines
                 (Spec.completed_rows (parser_samples (input_run env argv))))
  else None.
Proof.
  destruct (setup_succeeds env argv) eqn:S.
  - destruct (main_setup_succeeds env uninit argv S) as (_ & _ & ->).
    now rewrite main_process_samples_output.
  - now destruct (main_setup_fails env uninit argv S) as (-> & _).
Qed.

(** X8. [main] exits with 0 when the help was asked for or the set-up
    succeeded, and with 1 otherwise: once the output file is open, a
    decoding pass that ends with a fault still exits with 0. *)
Theorem main_exit_code (env : environment) (uninit : sample_data_t)
    (argv : list string) :
  exit_code (main env uninit argv) =
  if help_requested argv || setup_succeeds env argv then 0 else 1.
Proof.
  destruct (setup_succeeds env argv) eqn:S.
  - destruct (main_setup_succeeds env uninit argv S) as (-> & _).
    now rewrite orb_true_r.
  - destruct (main_setup_fails env uninit argv S) as (_ & -> & _).
    now rewrite orb_false_r.
Qed.

(** X9. The standard error stays empty exactly when the command line
    does not ask for a conversion (wrong argument count, or help), or
    the set-up succeeds and the decoding pass ends with success: every
    set-up fault and every decode fault leaves a message there. *)
Theorem main_reports_faults (env : environment) (uninit : sample_data_t)
    (argv : list string) :
  String.eqb (proc_stderr (main env uninit argv)) "" =
  (negb (length argv =? 2)%nat || help_requested argv
   || (setup_succeeds env argv
       && (parser_status (input_run env argv) =? DC_STATUS_SUCCESS))).
Proof.
  destruct (setup_succeeds env argv) eqn:S.
  - destruct (main_setup_succeeds env uninit argv S) as (_ & -> & _).
    rewrite main_process_samples_stderr. cbn [stderr andb].
    unfold setup_succeeds in S. cbn zeta in S.
    repeat (apply andb_true_iff in S as [S ?]).
    rewrite S. cbn [negb orb].
    match goal with
    | Hh : negb (help_requested argv) = true |- _ =>
        apply negb_true_iff in Hh; rewrite Hh
    end.
    cbn [orb].
    now destruct (parser_status (input_run env argv) =? DC_STATUS_SUCCESS).
  - destruct (main_setup_fails env uninit argv S) as (_ & _ & ->).
    now rewrite andb_false_l, orb_false_r.
Qed.

(** A dive of one row whose decoding pass ends with a fault: the file is
    written, the fault is reported, the exit status is 0. *)
Example main_example :
  let r := main example_environment example_row ["dsf2csv"; "my_dive.dsf"] in
  exit_code r = 0 /\
  csv_file r =
    Some ("my_dive.csv", csv_header ++ "5,20.00,,,,,NDL,0,0.00" ++ LF) /\
  proc_stderr r = "Error during sample processing (code: -9)" ++ LF /\
  proc_stdout r =
    "Successfully created parser for my_dive.dsf." ++ LF ++ LF
    ++ "Dive Time: 30 min" ++ LF ++ LF
    ++ "CSV file created: my_dive.csv" ++ LF
    ++ "Writing sample data..." ++ LF
    ++ "Sample data written successfully." ++ LF.
Proof. vm_compute. repeat split. Qed.

(* ================================================================== *)
(** ** Whole streams                                                   *)
(* ================================================================== *)

Section Streams.

Lemma leading_fields_no_time (events : list dc_sample) :
  no_time (leading_fields events) = true.
Proof.
  induction events as [|E rest IH]; [reflexivity|].
  cbn [leading_fields]. destruct (is_time E) eqn:T; [reflexivity|].
  cbn [no_time forallb]. now rewrite T.
Qed.

(** The rows of a stream delivered from any row in progress: the row in
    progress, completed by the leading field events, if it is dirty; then
    one row per segment. *)
Lemma deliver_segments (events : list dc_sample) (R : sample_data_t) :
  (fst (Spec.deliver R events)
     ++ Spec.flush (snd (Spec.deliver R events)))%list
  = (Spec.flush (snd (Spec.deliver R (leading_fields events)))
       ++ map (fun s => row_of (fst s) (snd s)) (segments events))%list.
Proof.
  revert R. induction events as [|E rest IH]; intros R.
  - cbn. now rewrite app_nil_r.
  - destruct E as [t|v|v|v|v|v|ty tm d|];
      try (cbn [Spec.deliver Spec.on_event leading_fields is_time segments];
           match goal with
           | |- context [Spec.deliver ?R1 rest] =>
               specialize (IH R1);
               destruct (Spec.deliver R1 rest) as [later R2];
               destruct (Spec.deliver R1 (leading_fields rest))
                 as [later3 R3]
           end; cbn [fst snd app] in *; exact IH).
    cbn [Spec.deliver Spec.on_event leading_fields is_time segments
         map fst snd].
    specialize (IH (Spec.fresh_row t)).
    rewrite (deliver_fields t (leading_fields rest)
               (leading_fields_no_time rest)) in IH.
    destruct (Spec.deliver (Spec.fresh_row t) rest) as [later R2].
    cbn [fst snd app] in *.
    rewrite <- app_assoc, IH.
    unfold Spec.flush at 2. rewrite row_of_dirty. reflexivity.
Qed.

Lemma completed_rows_segments (events : list dc_sample) :
  Spec.completed_rows events =
  map (fun s => row_of (fst s) (snd s)) (segments events).
Proof.
  unfold Spec.completed_rows, Spec.finish.
  pose proof (deliver_segments events Spec.default_row) as H.
  destruct (Spec.deliver Spec.default_row events) as [emitted R].
  cbn [fst snd] in H. rewrite H.
  pose proof (deliver_no_time_dirty (leading_fields events) Spec.default_row
                (leading_fields_no_time events)) as Hd.
  unfold Spec.flush at 1. rewrite Hd. reflexivity.
Qed.

Lemma csv_line_one_newline (R : sample_data_t) :
  count_newlines (Spec.csv_line R) = 1%nat.
Proof.
  apply (line_of_fields_one_line (Spec.csv_fields R)).
  apply csv_fields_no_separator.
Qed.

Lemma csv_lines_count_newlines (rows : list sample_data_t) :
  count_newlines (Spec.csv_lines rows) = length rows.
Proof.
  induction rows as [|R rows IH]; [reflexivity|].
  change (R :: rows) with ([R] ++ rows)%list.
  rewrite csv_lines_app, count_newlines_app, IH.
  change (Spec.csv_lines [R]) with (Spec.csv_line R).
  now rewrite csv_line_one_newline.
Qed.

Lemma deliver_ignores_other (events : list dc_sample) (R : sample_data_t) :
  Spec.deliver R (filter (fun E => negb (is_other E)) events)
  = Spec.deliver R events.
Proof.
  revert R. induction events as [|E rest IH]; intros R; [reflexivity|].
  destruct E; cbn [filter is_other negb Spec.deliver Spec.on_event];
    rewrite ?IH; try reflexivity.
  now destruct (Spec.deliver R rest).
Qed.

End Streams.

(** X10. For every stream, the completed rows are one row per Time event,
    in the order of the Time events: the row of a Time event holds its
    payload as time, and for each kind of field the payload of the latest
    event of that kind between this Time event and the next one, or the
    default when there is none. The file holds their lines after the
    header. *)
Theorem rows_are_the_segments (parser : dc_parser_t)
    (uninit : sample_data_t) (io : streams) :
  let rows := map (fun s => row_of (fst s) (snd s))
                  (segments (parser_samples parser)) in
  output_file (main_process_samples parser uninit io) =
    output_file io ++ csv_header ++ Spec.csv_lines rows /\
  map time rows = time_payloads (parser_samples parser) /\
  Forall (fun s => no_time (snd s) = true) (segments (parser_samples parser)).
Proof.
  cbn zeta. rewrite main_process_samples_output, completed_rows_segments.
  split; [reflexivity|]. split.
  - unfold time_payloads. rewrite map_map.
    apply map_ext. intros [t fs]. cbn [fst snd]. unfold row_of.
    now destruct (or_default (DC_DECO_NDL, 0, zero) (latest deco_of fs))
      as [[ty tm] d].
  - induction (parser_samples parser) as [|E rest IH]; [constructor|].
    destruct E; cbn [segments]; try exact IH.
    constructor; [apply leading_fields_no_time | exact IH].
Qed.

(** X11. The file gets the header line and one line per Time event of the
    stream, no more and no fewer, whatever else the stream holds and
    however the decoding pass ends. *)
Theorem one_line_per_time_event (parser : dc_parser_t)
    (uninit : sample_data_t) (io : streams) :
  count_newlines (output_file (main_process_samples parser uninit io)) =
  (count_newlines (output_file io) + 1
   + length (filter is_time (parser_samples parser)))%nat.
Proof.
  rewrite main_process_samples_output, !count_newlines_app.
  rewrite csv_lines_count_newlines, completed_rows_segments, length_map.
  change (count_newlines csv_header) with 1%nat.
  rewrite <- Nat.add_assoc. do 2 f_equal.
  induction (parser_samples parser) as [|E rest IH]; [reflexivity|].
  destruct E; cbn [segments filter is_time length]; now rewrite ?IH.
Qed.

Lemma completed_rows_app_time (first rest : list dc_sample) (t : Z) :
  Spec.completed_rows (first ++ DC_SAMPLE_TIME t :: rest) =
  (Spec.completed_rows first
     ++ Spec.completed_rows (DC_SAMPLE_TIME t :: rest))%list.
Proof.
  unfold Spec.completed_rows. rewrite deliver_app.
  destruct (Spec.deliver Spec.default_row first) as [e1 R1].
  cbn [fst snd Spec.deliver Spec.on_event].
  destruct (Spec.deliver (Spec.fresh_row t) rest) as [e2 R2].
  cbn [fst snd]. unfold Spec.finish.
  change (Spec.flush Spec.default_row) with (@nil sample_data_t).
  cbn [app]. now rewrite <- !app_assoc.
Qed.

(** X12. Streams compose at a Time event: what is written for a stream
    followed by a stream that starts with a Time event is what is written
    for the first stream, followed by the lines that the second stream
    gives on its own. The statuses that end the passes do not matter. *)
Theorem streams_compose_at_time_event (first rest : list dc_sample) (t : Z)
    (s1 s2 s3 : dc_status_t) (uninit : sample_data_t) (io : streams) :
  exists lines : string,
    output_file
      (main_process_samples
         {| parser_samples := DC_SAMPLE_TIME t :: rest; parser_status := s2 |}
         uninit io)
    = output_file io ++ csv_header ++ lines /\
    output_file
      (main_process_samples
         {| parser_samples := (first ++ DC_SAMPLE_TIME t :: rest)%list;
            parser_status := s3 |} uninit io)
    = output_file
        (main_process_samples
           {| parser_samples := first; parser_status := s1 |} uninit io)
      ++ lines.
Proof.
  exists (Spec.csv_lines (Spec.completed_rows (DC_SAMPLE_TIME t :: rest))).
  rewrite !main_process_samples_output. cbn [parser_samples].
  split; [reflexivity|].
  now rewrite completed_rows_app_time, csv_lines_app, !append_assoc.
Qed.

(** X13. Events of a kind the callback does not handle are ignored:
    removing them from a stream changes nothing in the file. *)
Theorem other_events_are_ignored (events : list dc_sample)
    (status : dc_status_t) (uninit : sample_data_t) (io : streams) :
  output_file
    (main_process_samples
       {| parser_samples := filter (fun E => negb (is_other E)) events;
          parser_status := status |} uninit io)
  = output_file
      (main_process_samples
         {| parser_samples := events; parser_status := status |} uninit io).
Proof.
  rewrite !main_process_samples_output. cbn [parser_samples].
  unfold Spec.completed_rows. now rewrite deliver_ignores_other.
Qed.

(** X14. A written line reads back: cut at its commas, the line of a
    dirty row gives exactly the nine field texts the projection wrote,
    as many as the header has column names. *)
Theorem written_line_splits_into_its_fields (out : FILE)
    (R : sample_data_t) :
  dirty R <> 0 ->
  exists body : string,
    write_sample_to_csv out R = out ++ body ++ LF /\
    split_commas body = Spec.csv_fields R /\
    length (split_commas body) = 9%nat /\
    (exists names, csv_header = names ++ LF /\
                   length (split_commas names) = 9%nat).
Proof.
  intros Hdirty. exists (String.concat "," (Spec.csv_fields R)).
  split; [now apply write_sample_to_csv_dirty|].
  assert (E : split_commas (String.concat "," (Spec.csv_fields R))
              = Spec.csv_fields R).
  { apply split_commas_concat; [discriminate|].
    apply csv_fields_no_separator. }
  split; [exact E|]. split; [now rewrite E|].
  exists "Time,Depth,Temperature,PPO2,CNS,Setpoint,DecoType,DecoTime,DecoDepth".
  split; reflexivity.
Qed.

Lemma written_line_splits_into_its_fields_witness :
  dirty example_row <> 0 /\
  exists body : string,
    write_sample_to_csv "" example_row = "" ++ body ++ LF /\
    split_commas body =
      ["1"; "20.00"; "28.0"; ""; ""; ""; "DECOSTOP"; "120"; "9.00"].
Proof.
  split; [discriminate|].
  destruct (written_line_splits_into_its_fields "" example_row)
    as (body & H & E & _); [discriminate|].
  exists body. split; [exact H|]. rewrite E. reflexivity.
Defined.

(* ================================================================== *)
(** ** [divesoft2csv.c]: the sample loop and [main]                    *)
(* ================================================================== *)

Section Divesoft2csvLoop.


Lemma fmt_f_count_newlines (p : nat) (x : double) :
  count_newlines (fmt_f p x) = O.
Proof. apply no_separator_count_newlines, fmt_f_no_separator. Qed.

Lemma fmt_u_count_newlines (z : Z) : count_newlines (fmt_u z) = O.
Proof. apply no_separator_count_newlines, decimal_no_separator. Qed.

Lemma write_sample_count_newlines (out : FILE)
    (sample : Divesoft2csv.dc_sample_value_t) :
  count_newlines (Divesoft2csv.write_sample out sample) =
  (count_newlines out
   + (if Divesoft2csv.is_po2 sample then 1 else 0))%nat.
Proof.
  destruct sample; cbn [Divesoft2csv.write_sample Divesoft2csv.is_po2];
    unfold fprintf; rewrite ?count_newlines_app,
      ?fmt_f_count_newlines, ?fmt_u_count_newlines; cbn; lia.
Qed.


End Divesoft2csvLoop.

(** X15. In [divesoft2csv.c] only a pO2 sample ends a line: the sample
    loop adds exactly as many newlines to the file as the stream has pO2
    samples, whatever the other samples are. *)
Theorem divesoft2csv_line_per_po2_sample
    (samples : list Divesoft2csv.dc_sample_value_t) (out : FILE) :
  count_newlines (Divesoft2csv.write_samples samples out) =
  (count_newlines out + length (filter Divesoft2csv.is_po2 samples))%nat.
Proof.
  revert out. induction samples as [|sample rest IH]; intros out.
  - cbn. lia.
  - unfold Divesoft2csv.write_samples in *. cbn [fold_left filter].
    rewrite IH, write_sample_count_newlines.
    destruct (Divesoft2csv.is_po2 sample); cbn [length]; lia.
Qed.


(** X17. [divesoft2csv.c] writes the header as soon as both files are
    open, before the library is set up: the output file then exists
    whatever happens next, holding the header alone when the context, the
    parser or its data cannot be set up (exit status 1), and the header
    followed by what the sample loop writes otherwise (exit status 0,
    whatever status ends the loop). Without both files open there is no
    output file and the exit status is 1. The standard error stays empty
    only when everything succeeds and the loop ends with DONE. The bytes
    given to the library are those the input holds once the output is
    open: none when both names lead to the same file. *)
Theorem divesoft2csv_main_outcome (env : Divesoft2csv.environment)
    (argv : list string) :
  let r := Divesoft2csv.main env argv in
  let data := Divesoft2csv.input_data env argv in
  csv_file r =
    (if Divesoft2csv.files_open env argv
     then Some (nth 2 argv "",
                if Divesoft2csv.library_ready env argv
                then Divesoft2csv.write_samples
                       (fst (Divesoft2csv.dc_parser_get_sample env data))
                       Divesoft2csv.csv_header
                else Divesoft2csv.csv_header)
     else None) /\
  exit_code r =
    (if Divesoft2csv.files_open env argv
        && Divesoft2csv.library_ready env argv then 0 else 1) /\
  String.eqb (proc_stderr r) "" =
    (Divesoft2csv.files_open env argv
     && Divesoft2csv.library_ready env argv
     && (snd (Divesoft2csv.dc_parser_get_sample env data)
           =? Divesoft2csv.DC_STATUS_DONE)).
Proof.
  unfold Divesoft2csv.main, Divesoft2csv.files_open,
    Divesoft2csv.library_ready, Divesoft2csv.input_data,
    Divesoft2csv.perror, Divesoft2csv.print_error, fprintf. cbn zeta.
  destruct (length argv <? 3)%nat; cbn [negb andb];
    [split; [|split]; reflexivity|].
  destruct (Divesoft2csv.fopen_rb env (nth 1 argv "")) as [content|];
    cbn [andb]; [|split; [|split]; reflexivity].
  set (data := if Divesoft2csv.same_file env (nth 1 argv "") (nth 2 argv "")
               then [] else content).
  destruct (Divesoft2csv.fopen_w env (nth 2 argv "")); cbn [negb andb];
    [|split; [|split]; reflexivity].
  destruct (Divesoft2csv.dc_context_new env =? DC_STATUS_SUCCESS);
    cbn [negb andb]; [|split; [|split]; reflexivity].
  destruct (Divesoft2csv.dc_parser_new env =? DC_STATUS_SUCCESS);
    cbn [negb andb]; [|split; [|split]; reflexivity].
  destruct (Divesoft2csv.dc_parser_set_data env data =? DC_STATUS_SUCCESS);
    cbn [negb andb]; [|split; [|split]; reflexivity].
  destruct (Divesoft2csv.dc_parser_get_sample env data) as [samples rc].
  cbn [fst snd exit_code csv_file proc_stderr].
  split; [reflexivity|]. split; [reflexivity|].
  now destruct (rc =? Divesoft2csv.DC_STATUS_DONE).
Qed.

(** With the input also named as the output, the library gets no byte:
    here it refuses the empty buffer, and the file is left with the
    header alone. *)
Example divesoft2csv_same_file_example :
  let r := Divesoft2csv.main example_same_file_environment
             ["divesoft2csv"; "dive.csv"; "dive.csv"] in
  exit_code r = 1 /\
  csv_file r = Some ("dive.csv", Divesoft2csv.csv_header) /\
  proc_stderr r = "Kon parser data niet zetten (-9)" ++ LF.
Proof. vm_compute. repeat split. Qed.
